(** * Coffee-blend quiz: the quiz state machine and the result derivation

    A shallow embedding of [src/utils/quizLogic.js] (the table-driven
    derivation of a blend from the quiz answers) and of the reducer, the
    action layer and the local derivation of [context/QuizContext] (the
    six-question state machine), followed by the properties of both.

    Conventions of the embedding.
    - A JavaScript number that the code computes with as a real quantity
      (progress percentages, [Math.random] draws, the bitterness bucket) is
      a binary64 [float], with the kernel's IEEE operations.  Question
      numbers, key counts and character-code sums are non-negative integers
      in the code and are [nat] or [N] here; a slider answer is an integer
      and is a [Z].
    - The answers object is a finite map from question ids to answer
      values.  Its keys are integer-like, so [Object.values] lists the
      values by ascending key.
    - An answer value is a token (a string), a list of tokens, or an
      integer, as the quiz view produces them.  Tokens are the option
      values of the questions and the sentinel ['skipped']: they are ASCII,
      they are not numeric literals and they do not name a member of
      [Object.prototype], so a character code is the code of a byte,
      [ToNumber] of a non-empty token is [NaN] and a table lookup by a
      token sees the table's own keys only.  The strings the code returns
      are byte strings in UTF-8.
    - [undefined] is [None].
    - [Date.now()] and [Math.random()] are inputs of the functions that
      call them.
    - An action runs on the state of the latest render, and the dispatches
      of one action are reduced in the order they are made. *)

From Stdlib Require Import ZArith NArith List String Ascii Floats Lia DecimalString.
From stdpp Require Import gmap sorting.

(** ** JavaScript values and the primitive operations the code uses *)

Module Js.

Inductive JsValue : Type :=
  | VStr (s : string)
  | VArr (l : list string)
  | VNum (n : Z).

#[global] Instance JsValue_eq_dec : EqDecision JsValue.
Proof. solve_decision. Defined.

(** [Boolean(v)]: the empty string and zero are falsy, every array is truthy. *)
Definition truthy (v : JsValue) : bool :=
  match v with
  | VStr s => negb (String.eqb s "")
  | VArr _ => true
  | VNum n => negb (n =? 0)%Z
  end.

(** [x || d] for a possibly absent [x]. *)
Definition or_else (x : option JsValue) (d : JsValue) : JsValue :=
  match x with
  | Some v => if truthy v then v else d
  | None => d
  end.

(** [String(n)] for an integer. *)
Definition num_to_string (n : Z) : string := NilZero.string_of_int (Z.to_int n).

(** [Array.prototype.join] over strings. *)
Definition join (sep : string) (l : list string) : string := String.concat sep l.

(** [String(v)], also the property key [v] stands for. *)
Definition to_string (v : JsValue) : string :=
  match v with
  | VStr s => s
  | VArr l => join "," l
  | VNum n => num_to_string n
  end.

(** [join] over possibly undefined elements: [undefined] joins as the empty string. *)
Definition join_opt (sep : string) (l : list (option string)) : string :=
  join sep (map (fun o => match o with Some s => s | None => EmptyString end) l).

(** [v === 'literal']: only a string is strictly equal to a string. *)
Definition strict_eq_str (v : JsValue) (lit : string) : bool :=
  match v with
  | VStr s => String.eqb s lit
  | _ => false
  end.

(** [table[key]] on an object literal, by its own keys. *)
Fixpoint lookup_key {A : Type} (table : list (string * A)) (key : string) : option A :=
  match table with
  | [] => None
  | (k, a) :: rest => if String.eqb k key then Some a else lookup_key rest key
  end.

(** [table[v] || d] where every entry of the table is a non-empty string. *)
Definition lookup_or (table : list (string * string)) (v : JsValue) (d : string) : string :=
  match lookup_key table (to_string v) with
  | Some s => s
  | None => d
  end.

(** The elements of an array value, as values. *)
Definition elements_of (l : list string) : list JsValue := map VStr l.

(** An integer as a number. *)
Definition Z2float (z : Z) : float :=
  match z with
  | Z0 => 0%float
  | Zpos _ => PrimFloat.of_uint63 (Uint63.of_Z z)
  | Zneg p => PrimFloat.opp (PrimFloat.of_uint63 (Uint63.of_Z (Zpos p)))
  end.

Definition nat2float (n : nat) : float := Z2float (Z.of_nat n).

(** [Number(v)]: a non-empty token is not a numeric literal; the empty
    string and the empty array convert to zero. *)
Definition to_number (v : JsValue) : float :=
  match v with
  | VNum n => Z2float n
  | VStr s => if String.eqb s "" then 0%float else PrimFloat.nan
  | VArr [] => 0%float
  | VArr (_ :: _) => PrimFloat.nan
  end.

(** [Math.floor]. *)
Definition Math_floor (x : float) : float :=
  match Prim2SF x with
  | S754_finite sign m (Zneg p) =>
      if sign
      then Z2float (- ((Zpos m + 2 ^ Zpos p - 1) / 2 ^ Zpos p))
      else Z2float (Zpos m / 2 ^ Zpos p)
  | _ => x
  end.

(** [Math.min] of two numbers. *)
Definition Math_min (x y : float) : float :=
  if (PrimFloat.is_nan x || PrimFloat.is_nan y)%bool then PrimFloat.nan
  else if (x <? y)%float then x
  else if (y <? x)%float then y
  else if PrimFloat.get_sign x then x else y.

(** The array index a number denotes, when it is a non-negative integer. *)
Definition index_of_number (x : float) : option Z :=
  match Prim2SF x with
  | S754_zero _ => Some 0%Z
  | S754_finite false m (Zneg p) =>
      if (Zpos m mod 2 ^ Zpos p =? 0)%Z then Some (Zpos m / 2 ^ Zpos p)%Z else None
  | S754_finite false m e => Some (Zpos m * 2 ^ e)%Z
  | _ => None
  end.

(** [arr[i]] for an integer [i]: [undefined] outside the array. *)
Definition array_at {A : Type} (arr : list A) (i : Z) : option A :=
  if ((0 <=? i) && (i <? Z.of_nat (length arr)))%Z then arr !! Z.to_nat i else None.

(** [arr[x]] for a number [x]. *)
Definition array_get {A : Type} (arr : list A) (x : float) : option A :=
  match index_of_number x with
  | Some i => array_at arr i
  | None => None
  end.

(** [Object.values(o)]: the values by ascending key. *)
Definition key_le : relation (nat * JsValue) := fun p q => p.1 ≤ q.1.

#[global] Instance key_le_dec : RelDecision key_le.
Proof. intros p q. unfold key_le. apply _. Defined.

Definition Object_values (o : gmap nat JsValue) : list JsValue :=
  (merge_sort key_le (map_to_list o)).*2.

(** [Object.keys(o).length]. *)
Definition Object_keys_length (o : gmap nat JsValue) : nat := size o.

(** The character codes of a string, as [split('')] and [charCodeAt(0)] give them. *)
Definition char_codes (s : string) : list N := map N_of_ascii (list_ascii_of_string s).

(** [Math.round]: the nearest integer, a tie going up; a result of zero
    keeps the sign of a negative argument. *)
Definition Math_round (x : float) : float :=
  match Prim2SF x with
  | S754_finite sign m (Zneg p) =>
      let n := if sign then Zneg m else Zpos m in
      let r := ((2 * n + 2 ^ Zpos p) / 2 ^ (Zpos p + 1))%Z in
      if (r =? 0)%Z then (if sign then (-0)%float else 0%float) else Z2float r
  | _ => x
  end.

(** [arr.includes('literal')] over possibly undefined elements. *)
Definition includes_str (arr : list (option JsValue)) (lit : string) : bool :=
  existsb (fun x => match x with Some v => strict_eq_str v lit | None => false end) arr.

End Js.

Import Js.

(** The result record both derivations build.  [name] is [None] when the
    name list is indexed outside its range. *)
Record BlendResult : Type := mkBlendResult {
  name : option string;
  notes : string;
  origins : string;
  roastLevel : string;
  grindSuggestion : string;
  caffeineLevel : string;
  description : string
}.

(** ** [src/utils/quizLogic.js] *)

Module QuizLogic.

Open Scope string_scope.

Definition BLEND_NAMES : list string :=
  [ "Nocturne 03"; "Aurora Blend"; "Meridian"; "Solstice"; "Compass Rose";
    "Twilight"; "Zenith"; "Harmony"; "Cascade"; "Ember"; "Mosaic"; "Prism";
    "Velvet Storm"; "Golden Hour"; "Obsidian"; "Copper Peak"; "Silver Moon";
    "Starlight"; "Thunder Ridge"; "Crimson Dawn"; "Mystic Valley"; "Iron Mountain" ].

Record Origin : Type := mkOrigin {
  origin_name : string;
  origin_profile : list string;
  origin_body : string
}.

Definition ORIGINS_0 : Origin := mkOrigin "Ethiopian Yirgacheffe" ["floral"; "citrus"] "light".
Definition ORIGINS_1 : Origin := mkOrigin "Colombian Huila" ["chocolate"; "caramel"] "medium".

Definition ORIGINS : list Origin :=
  [ ORIGINS_0;
    ORIGINS_1;
    mkOrigin "Guatemalan Antigua" ["spicy"; "chocolate"] "full";
    mkOrigin "Brazilian Santos" ["nutty"; "chocolate"] "medium";
    mkOrigin "Costa Rican Tarrazú" ["citrus"; "berry"] "medium";
    mkOrigin "Jamaican Blue Mountain" ["floral"; "nutty"] "light";
    mkOrigin "Hawaiian Kona" ["nutty"; "caramel"] "medium";
    mkOrigin "Kenyan AA" ["berry"; "citrus"] "full";
    mkOrigin "Peruvian Organic" ["chocolate"; "nutty"] "medium";
    mkOrigin "Panamanian Geisha" ["floral"; "berry"] "light" ].

Record FlavorProfile : Type := mkFlavorProfile {
  profile_notes : list string;
  profile_intensity : string;
  profile_roastPreference : string
}.

Definition FLAVOR_PROFILES : list (string * FlavorProfile) :=
  [ ("chocolate", mkFlavorProfile ["Dark chocolate"; "Milk chocolate"; "Cocoa"; "Mocha"] "rich" "medium-dark");
    ("caramel", mkFlavorProfile ["Caramel sweetness"; "Butterscotch"; "Toffee"; "Brown sugar"] "sweet" "medium");
    ("citrus", mkFlavorProfile ["Bright citrus"; "Lemon zest"; "Orange"; "Grapefruit"] "bright" "light-medium");
    ("berry", mkFlavorProfile ["Berry notes"; "Blueberry"; "Blackcurrant"; "Cherry"] "fruity" "light");
    ("nutty", mkFlavorProfile ["Toasted hazelnut"; "Almond"; "Walnut"; "Pecan"] "warm" "medium");
    ("floral", mkFlavorProfile ["Floral hints"; "Jasmine"; "Lavender"; "Rose"] "delicate" "light");
    ("spicy", mkFlavorProfile ["Warm spice"; "Cinnamon"; "Clove"; "Cardamom"] "complex" "dark") ].

(** The seed of the blend name: the character codes of the joined truthy values, summed. *)
Definition name_seed (answers : gmap nat JsValue) : N :=
  fold_left (fun acc code => (acc + code)%N)
    (char_codes (join "" (map to_string (List.filter truthy (Object_values answers)))))
    0%N.

Definition generateBlendName (answers : gmap nat JsValue) : option string :=
  array_at BLEND_NAMES (Z.of_N (name_seed answers mod N.of_nat (length BLEND_NAMES))).

Definition finishNotes : list string :=
  [ "Smooth finish"; "Clean finish"; "Bold finish"; "Lingering finish" ].

(** The note one selected flavor contributes.  The table is looked up by
    its own keys: for a flavor that names a member of [Object.prototype]
    the source finds the inherited member and throws on reading its notes,
    so the embedding follows the source on the other flavors only (see
    [inherited_key] and [plain_answers] below). *)
Definition flavor_note (roastPreference flavor : JsValue) : option string :=
  match lookup_key FLAVOR_PROFILES (to_string flavor) with
  | None => Some "Complex notes"
  | Some profile =>
      let len := Z.of_nat (length (profile_notes profile)) in
      let noteIndex :=
        if strict_eq_str roastPreference "light" then 0%Z
        else if strict_eq_str roastPreference "dark" then (len - 1)%Z
        else (len / 2)%Z in
      match array_at (profile_notes profile) noteIndex with
      | Some note => if String.eqb note "" then array_at (profile_notes profile) 0 else Some note
      | None => array_at (profile_notes profile) 0
      end
  end.

Definition finishIndex (bitterness : JsValue) : float :=
  Math_min (Math_floor ((to_number bitterness - 1) / 1.25)%float)
           (nat2float (length finishNotes - 1)).

Definition generateTastingNotes (flavors : list JsValue) (roastPreference bitterness : JsValue) : string :=
  let kept :=
    take 3 (List.filter (fun f => truthy f && negb (strict_eq_str f "skipped")) flavors) in
  let selectedFlavors :=
    if (length kept =? 0)%nat then (kept ++ [VStr "chocolate"])%list else kept in
  let notes := map (flavor_note roastPreference) selectedFlavors in
  join_opt " • " (notes ++ [array_get finishNotes (finishIndex bitterness)])%list.

Definition origin_matches (flavors : list JsValue) (origin : Origin) : bool :=
  existsb (fun flavor => existsb (strict_eq_str flavor) (origin_profile origin)) flavors.

Definition generateOriginBlend (flavors : list JsValue) (roastPreference : JsValue) : string :=
  let matchingOrigins := List.filter (origin_matches flavors) ORIGINS in
  let availableOrigins :=
    if (0 <? length matchingOrigins)%nat then matchingOrigins else ORIGINS in
  let primary := default ORIGINS_0 (array_at availableOrigins 0) in
  let secondary := default ORIGINS_1 (array_at availableOrigins 1) in
  let primaryPercent :=
    if strict_eq_str roastPreference "light" then 70%Z
    else if strict_eq_str roastPreference "dark" then 55%Z else 60%Z in
  let secondaryPercent := (100 - primaryPercent)%Z in
  origin_name primary ++ " " ++ num_to_string primaryPercent ++ "% • "
    ++ origin_name secondary ++ " " ++ num_to_string secondaryPercent ++ "%".

Definition mapRoastLevel (roastPreference : JsValue) : string :=
  lookup_or [ ("light", "Light Roast"); ("medium", "Medium Roast"); ("dark", "Dark Roast") ]
    roastPreference "Medium Roast".

Definition mapGrindSuggestion (brewMethod : JsValue) : string :=
  lookup_or [ ("espresso", "Fine"); ("pour-over", "Medium-fine"); ("drip", "Medium");
              ("french-press", "Coarse"); ("pod", "Pre-ground"); ("not-sure", "Medium") ]
    brewMethod "Medium".

Definition mapCaffeineLevel (caffeine : JsValue) : string :=
  lookup_or [ ("full", "Full Caffeine"); ("half-caf", "Half Caffeine"); ("low-decaf", "Low/Decaf") ]
    caffeine "Full Caffeine".

Definition generateDescription (drinkStyle roastPreference : JsValue) (flavors : list JsValue) : string :=
  let styleDesc :=
    lookup_or [ ("black", "pure coffee experience");
                ("little-milk", "lightly enhanced coffee");
                ("milk-sugar", "balanced sweetened coffee");
                ("sweet-creamy", "rich, indulgent coffee experience");
                ("not-sure", "versatile coffee experience") ]
      drinkStyle "perfect coffee experience" in
  let roastDesc :=
    lookup_or [ ("light", "bright and nuanced"); ("medium", "well-balanced");
                ("dark", "bold and robust") ]
      roastPreference "expertly crafted" in
  "A carefully crafted blend that matches your taste preferences for " ++ styleDesc
    ++ " with " ++ roastDesc
    ++ " character. This blend celebrates the unique flavors you love while maintaining perfect balance in every cup.".

(** The six values the result is computed from, after the [||] defaults.
    [generateBlendResult] below returns a record for every answer set; the
    source does so on the answers whose values name no member of
    [Object.prototype] ([plain_answers]), which are all a view produces. *)
Definition drinkStyle_of (answers : gmap nat JsValue) : JsValue :=
  or_else (answers !! 1) (VStr "black").
Definition roastPreference_of (answers : gmap nat JsValue) : JsValue :=
  or_else (answers !! 2) (VStr "medium").
Definition flavors_of (answers : gmap nat JsValue) : list JsValue :=
  match answers !! 3 with
  | Some (VArr l) => elements_of l
  | other => [or_else other (VStr "chocolate")]
  end.
Definition bitterness_of (answers : gmap nat JsValue) : JsValue :=
  or_else (answers !! 4) (VNum 3).
Definition brewMethod_of (answers : gmap nat JsValue) : JsValue :=
  or_else (answers !! 5) (VStr "drip").
Definition caffeine_of (answers : gmap nat JsValue) : JsValue :=
  or_else (answers !! 6) (VStr "full").

Definition generateBlendResult (answers : gmap nat JsValue) : BlendResult :=
  let drinkStyle := drinkStyle_of answers in
  let roastPreference := roastPreference_of answers in
  let flavors := flavors_of answers in
  let bitterness := bitterness_of answers in
  let brewMethod := brewMethod_of answers in
  let caffeine := caffeine_of answers in
  {| name := generateBlendName answers;
     notes := generateTastingNotes flavors roastPreference bitterness;
     origins := generateOriginBlend flavors roastPreference;
     roastLevel := mapRoastLevel roastPreference;
     grindSuggestion := mapGrindSuggestion brewMethod;
     caffeineLevel := mapCaffeineLevel caffeine;
     description := generateDescription drinkStyle roastPreference flavors |}.

(** *** [analyzeQuizCompletion] *)

Record CompletionAnalysis : Type := mkCompletionAnalysis {
  totalTime : float;
  averageTime : float;
  efficiency : string;
  completionRate : float
}.

(** [timeElapsed] is a span of milliseconds, an integer. *)
Definition analyzeQuizCompletion (timeElapsed : Z) (answers : gmap nat JsValue) : CompletionAnalysis :=
  let seconds := Math_round (Z2float timeElapsed / 1000)%float in
  let completedQuestions := nat2float (Object_keys_length answers) in
  let averageTimePerQuestion := (seconds / completedQuestions)%float in
  {| totalTime := seconds;
     averageTime := Math_round averageTimePerQuestion;
     efficiency :=
       if (seconds <=? 45)%float then "excellent"
       else if (seconds <=? 60)%float then "good" else "thorough";
     completionRate := (completedQuestions / 6 * 100)%float |}.

(** *** [generateRecommendations] *)

Record Recommendation : Type := mkRecommendation {
  rec_type : string;
  rec_title : string;
  rec_description : string
}.

Definition equipment_recommendation : Recommendation :=
  mkRecommendation "equipment" "Try a Pour-Over" "Perfect for exploring different flavor profiles".

Definition flavor_recommendation : Recommendation :=
  mkRecommendation "flavor" "Explore Single Origins"
    "Try our Brazilian Santos for rich chocolate notes".

Definition generateRecommendations (answers : gmap nat JsValue) : list Recommendation :=
  let flavors : list (option JsValue) :=
    match answers !! 3 with
    | Some (VArr l) => map Some (elements_of l)
    | other => [other]
    end in
  let brewMethod := answers !! 5 in
  let afterEquipment :=
    match brewMethod with
    | Some v => if strict_eq_str v "not-sure" then [equipment_recommendation] else []
    | None => []
    end in
  if includes_str flavors "chocolate"
  then (afterEquipment ++ [flavor_recommendation])%list
  else afterEquipment.

End QuizLogic.

(** ** [context/QuizContext]: the reducer, the actions and the local derivation *)

Module QuizContext.

Open Scope string_scope.

(** [QUIZ_STATES]; [QUESTION n] is the string [question_${n}]. *)
Inductive QUIZ_STATES : Type :=
  | IDLE
  | QUESTION (n : nat)
  | RESULT.

#[global] Instance QUIZ_STATES_eq_dec : EqDecision QUIZ_STATES.
Proof. solve_decision. Defined.

Definition QUESTION_1 : QUIZ_STATES := QUESTION 1.

Record QuizState : Type := mkQuizState {
  currentState : QUIZ_STATES;
  currentQuestion : nat;
  answers : gmap nat JsValue;
  progress : float;
  result : option BlendResult;
  startTime : option Z;
  completionTime : option Z
}.

Definition initialState : QuizState :=
  {| currentState := IDLE;
     currentQuestion := 1;
     answers := ∅;
     progress := 0%float;
     result := None;
     startTime := None;
     completionTime := None |}.

Inductive Action : Type :=
  | START_QUIZ (firstAnswer : option JsValue)
  | ANSWER_QUESTION (questionId : nat) (answer : JsValue)
  | NEXT_QUESTION
  | PREVIOUS_QUESTION
  | GENERATE_RESULT (r : BlendResult)
  | RESET_QUIZ
  | SKIP_QUESTION (questionId : nat).

(** [firstAnswer ? a : b]: [null] and the empty string are falsy. *)
Definition given (firstAnswer : option JsValue) : bool :=
  match firstAnswer with
  | Some v => truthy v
  | None => false
  end.

(** The percentage [(n / 6) * 100]. *)
Definition sixths (n : nat) : float := (nat2float n / 6 * 100)%float.

(** The position progress of NEXT_QUESTION and PREVIOUS_QUESTION on reaching
    question [question] with [answeredCount] keys in the answers. *)
Definition position_progress (question answeredCount : nat) : float :=
  let questionProgress := sixths (question - 1) in
  let answerBonus :=
    if (0 <? answeredCount)%nat then (nat2float answeredCount / 6 * 5)%float else 0%float in
  Math_min (questionProgress + answerBonus)%float 100%float.

(** The reducer; [now] is what [Date.now()] returns while it runs. *)
Definition quizReducer (now : Z) (state : QuizState) (action : Action) : QuizState :=
  match action with
  | START_QUIZ firstAnswer =>
      {| currentState := QUESTION_1;
         currentQuestion := 1;
         answers := match firstAnswer with
                    | Some v => if truthy v then {[ 1%nat := v ]} else ∅
                    | None => ∅
                    end;
         progress := if given firstAnswer then (1 / 6 * 100)%float else (0 / 6 * 100)%float;
         result := result state;
         startTime := Some now;
         completionTime := completionTime state |}
  | ANSWER_QUESTION questionId answer =>
      let newAnswers := <[ questionId := answer ]> (answers state) in
      {| currentState := currentState state;
         currentQuestion := currentQuestion state;
         answers := newAnswers;
         progress := sixths (Object_keys_length newAnswers);
         result := result state;
         startTime := startTime state;
         completionTime := completionTime state |}
  | NEXT_QUESTION =>
      let nextQuestion := (currentQuestion state + 1)%nat in
      if (6 <? nextQuestion)%nat then
        {| currentState := RESULT;
           currentQuestion := currentQuestion state;
           answers := answers state;
           progress := 100%float;
           result := result state;
           startTime := startTime state;
           completionTime := Some now |}
      else
        {| currentState := QUESTION nextQuestion;
           currentQuestion := nextQuestion;
           answers := answers state;
           progress := position_progress nextQuestion (Object_keys_length (answers state));
           result := result state;
           startTime := startTime state;
           completionTime := completionTime state |}
  | PREVIOUS_QUESTION =>
      let prevQuestion := Nat.max 1 (currentQuestion state - 1) in
      {| currentState := if (prevQuestion =? 1)%nat then QUESTION_1 else QUESTION prevQuestion;
         currentQuestion := prevQuestion;
         answers := answers state;
         progress := position_progress prevQuestion (Object_keys_length (answers state));
         result := result state;
         startTime := startTime state;
         completionTime := completionTime state |}
  | GENERATE_RESULT r =>
      {| currentState := currentState state;
         currentQuestion := currentQuestion state;
         answers := answers state;
         progress := progress state;
         result := Some r;
         startTime := startTime state;
         completionTime := Some now |}
  | RESET_QUIZ => initialState
  | SKIP_QUESTION questionId =>
      let skipAnswers := <[ questionId := VStr "skipped" ]> (answers state) in
      let skipProgress := sixths (Object_keys_length skipAnswers) in
      let skipNextQuestion := (currentQuestion state + 1)%nat in
      if (6 <? skipNextQuestion)%nat then
        {| currentState := RESULT;
           currentQuestion := currentQuestion state;
           answers := skipAnswers;
           progress := skipProgress;
           result := result state;
           startTime := startTime state;
           completionTime := Some now |}
      else
        {| currentState := QUESTION skipNextQuestion;
           currentQuestion := skipNextQuestion;
           answers := skipAnswers;
           progress := skipProgress;
           result := result state;
           startTime := startTime state;
           completionTime := completionTime state |}
  end.

(** *** The local [generateBlendResult] *)

Definition blendNames : list string :=
  [ "Nocturne 03"; "Aurora Blend"; "Meridian"; "Solstice"; "Compass Rose";
    "Twilight"; "Zenith"; "Harmony"; "Cascade"; "Ember"; "Mosaic"; "Prism" ].

Definition originNames : list string :=
  [ "Ethiopian Yirgacheffe"; "Colombian Huila"; "Guatemalan Antigua";
    "Brazilian Santos"; "Costa Rican Tarrazú"; "Jamaican Blue Mountain";
    "Hawaiian Kona"; "Kenyan AA"; "Peruvian Organic"; "Panamanian Geisha" ].

Definition flavorMap : list (string * string) :=
  [ ("chocolate", "Dark chocolate"); ("caramel", "Caramel sweetness");
    ("citrus", "Bright citrus"); ("berry", "Berry notes");
    ("nutty", "Toasted hazelnut"); ("floral", "Floral hints"); ("spicy", "Warm spice") ].

Definition grindMap : list (string * string) :=
  [ ("espresso", "Fine"); ("pour-over", "Medium-fine"); ("drip", "Medium");
    ("french-press", "Coarse"); ("pod", "Pre-ground"); ("not-sure", "Medium") ].

Definition roastMap : list (string * string) :=
  [ ("light", "Light Roast"); ("medium", "Medium Roast"); ("dark", "Dark Roast") ].

Definition finishes : list string :=
  [ "Smooth finish"; "Caramel finish"; "Clean finish"; "Bold finish" ].

Definition profileDescriptions : list (string * string) :=
  [ ("bright-fruity", "bright, fruit-forward coffee with vibrant acidity");
    ("rich-chocolatey", "rich, chocolatey coffee with bold, deep flavors");
    ("smooth-nutty", "smooth, well-balanced coffee with nutty sweetness") ].

(** [v.length]: strings and arrays have one, a number does not. *)
Definition length_of (v : JsValue) : option Z :=
  match v with
  | VStr s => Some (Z.of_nat (String.length s))
  | VArr l => Some (Z.of_nat (length l))
  | VNum _ => None
  end.

(** [(flavorProfile.length + roastPreference.length + bitterness) % n], with
    [None] for [NaN].  Adding a number keeps the sum a number; adding the
    empty array or the empty string gives the sum's own digits; adding a
    token or a non-empty array gives a string that is not a numeric literal. *)
Definition nameIndex_of (flavorProfile roastPreference bitterness : JsValue) (n : Z) : option Z :=
  match length_of flavorProfile, length_of roastPreference with
  | Some a, Some b =>
      match bitterness with
      | VNum z => Some (Z.rem (a + b + z) n)
      | VArr [] => Some (Z.rem (a + b) n)
      | VStr s => if String.eqb s "" then Some (Z.rem (a + b) n) else None
      | VArr (_ :: _) => None
      end
  | _, _ => None
  end.

(** [`${x}`] for a possibly undefined string. *)
Definition show (x : option string) : string :=
  match x with
  | Some s => s
  | None => "undefined"
  end.

(** [arr[Math.floor(Math.random() * arr.length)]] for the draw [u]. *)
Definition pick (arr : list string) (u : float) : option string :=
  array_get arr (Math_floor (u * nat2float (length arr))%float).

(** The derivation the action layer calls; [u1], [u2], [u3] are the three
    values [Math.random()] returns, in the order of the calls. *)
Definition generateBlendResult (u1 u2 u3 : float) (answers : gmap nat JsValue) : BlendResult :=
  let flavorProfile := or_else (answers !! 1) (VStr "smooth-nutty") in
  let roastPreference := or_else (answers !! 2) (VStr "medium") in
  let flavors := or_else (answers !! 3) (VArr ["chocolate"]) in
  let bitterness := or_else (answers !! 4) (VNum 3) in
  let brewMethod := or_else (answers !! 5) (VStr "drip") in
  let caffeine := or_else (answers !! 6) (VStr "full") in
  let nameIndex :=
    nameIndex_of flavorProfile roastPreference bitterness (Z.of_nat (length blendNames)) in
  let selectedFlavors :=
    match flavors with
    | VArr l => elements_of l
    | v => [v]
    end in
  let flavorNotes :=
    join " • " (map (fun flavor => lookup_or flavorMap flavor "Complex notes")
                    (take 3 selectedFlavors)) in
  let primaryOrigin := pick originNames u1 in
  let secondaryOrigin := pick originNames u2 in
  let originBreakdown := show primaryOrigin ++ " 60% • " ++ show secondaryOrigin ++ " 40%" in
  let finish := pick finishes u3 in
  let profileDesc := lookup_or profileDescriptions flavorProfile "perfectly balanced coffee" in
  {| name := match nameIndex with
             | Some i => array_at blendNames i
             | None => None
             end;
     notes := flavorNotes ++ " • " ++ show finish;
     origins := originBreakdown;
     roastLevel := lookup_or roastMap roastPreference "Medium Roast";
     grindSuggestion := lookup_or grindMap brewMethod "Medium";
     caffeineLevel :=
       if strict_eq_str caffeine "full" then "Full Caffeine"
       else if strict_eq_str caffeine "half-caf" then "Half Caffeine" else "Low/Decaf";
     description :=
       "A carefully crafted blend that delivers " ++ profileDesc ++ " with "
         ++ to_string roastPreference
         ++ " roast character. This blend celebrates your unique taste preferences while maintaining perfect balance in every cup." |}.

(** *** The actions of the provider *)

Definition startQuiz (now : Z) (firstAnswer : option JsValue) (state : QuizState) : QuizState :=
  quizReducer now state (START_QUIZ firstAnswer).

(** The reducer reads no clock for ANSWER_QUESTION, PREVIOUS_QUESTION and
    RESET_QUIZ; the reading passed for them is never looked at. *)
Definition answerQuestion (questionId : nat) (answer : JsValue) (state : QuizState) : QuizState :=
  quizReducer 0 state (ANSWER_QUESTION questionId answer).

(** [nextQuestion]: past the sixth question the result is generated from the
    answers and dispatched, and NEXT_QUESTION is dispatched after it. *)
Definition nextQuestion (u1 u2 u3 : float) (nowGenerate nowNext : Z) (state : QuizState) : QuizState :=
  let nextQ := (currentQuestion state + 1)%nat in
  let generated :=
    if (6 <? nextQ)%nat
    then quizReducer nowGenerate state
           (GENERATE_RESULT (generateBlendResult u1 u2 u3 (answers state)))
    else state in
  quizReducer nowNext generated NEXT_QUESTION.

Definition previousQuestion (state : QuizState) : QuizState :=
  quizReducer 0 state PREVIOUS_QUESTION.

Definition skipQuestion (now : Z) (questionId : nat) (state : QuizState) : QuizState :=
  quizReducer now state (SKIP_QUESTION questionId).

Definition resetQuiz (state : QuizState) : QuizState :=
  quizReducer 0 state RESET_QUIZ.

(** One call of an exposed action, with the clock readings and random draws
    the call consumes. *)
Inductive Call : Type :=
  | CallStart (now : Z) (firstAnswer : option JsValue)
  | CallAnswer (questionId : nat) (answer : JsValue)
  | CallNext (u1 u2 u3 : float) (nowGenerate nowNext : Z)
  | CallPrevious
  | CallSkip (now : Z) (questionId : nat)
  | CallReset.

Definition perform (state : QuizState) (call : Call) : QuizState :=
  match call with
  | CallStart now firstAnswer => startQuiz now firstAnswer state
  | CallAnswer questionId answer => answerQuestion questionId answer state
  | CallNext u1 u2 u3 nowGenerate nowNext => nextQuestion u1 u2 u3 nowGenerate nowNext state
  | CallPrevious => previousQuestion state
  | CallSkip now questionId => skipQuestion now questionId state
  | CallReset => resetQuiz state
  end.

Definition run (calls : list Call) : QuizState := fold_left perform calls initialState.

(** The states the provider can be in: the initial one and every state a
    call leads to from one of them. *)
Inductive reachable : QuizState -> Prop :=
  | reachable_initial : reachable initialState
  | reachable_perform (state : QuizState) (call : Call) :
      reachable state -> reachable (perform state call).

(** What the views offer: the hero starts the quiz; the quiz view answers
    the current question, goes on, goes back and skips the current
    question; the result view resets.  (The quiz view enables its Next
    button once the question is answered; going on is taken as offered on
    every question here, which offers no less.) *)
Definition offered (state : QuizState) (call : Call) : bool :=
  match currentState state, call with
  | IDLE, CallStart _ _ => true
  | QUESTION _, CallAnswer questionId _ => (questionId =? currentQuestion state)%nat
  | QUESTION _, CallNext _ _ _ _ _ => true
  | QUESTION _, CallPrevious => true
  | QUESTION _, CallSkip _ questionId => (questionId =? currentQuestion state)%nat
  | RESULT, CallReset => true
  | _, _ => false
  end.

(** *** The questions and the values the provider derives from the state *)

Record QuizOption : Type := mkQuizOption {
  option_value : string;
  option_label : string;
  option_description : option string
}.

Record Question : Type := mkQuestion {
  question_id : nat;
  question_text : string;
  question_type : string;
  question_options : list QuizOption;
  question_maxSelection : option nat;
  question_range : option (Z * Z);
  question_labels : list string
}.

Definition plain_option (value label : string) : QuizOption := mkQuizOption value label None.

(** [QUIZ_QUESTIONS], by key. *)
Definition QUIZ_QUESTIONS : list (nat * Question) :=
  [ (1, mkQuestion 1 "Your coffee soul craves..." "radio"
          [ mkQuizOption "bright-fruity" "☀️ Bright & fruity"
              (Some "Ethiopian vibes, floral notes, pour-over perfection");
            mkQuizOption "rich-chocolatey" "🍫 Rich & chocolatey"
              (Some "Dark roasts, South American, espresso-forward");
            mkQuizOption "smooth-nutty" "🌰 Smooth & nutty"
              (Some "Balanced Brazilian, caramel sweetness, approachable") ]
          None None []);
    (2, mkQuestion 2 "Preferred roast color?" "radio"
          [ plain_option "light" "Light"; plain_option "medium" "Medium";
            plain_option "dark" "Dark" ]
          None None []);
    (3, mkQuestion 3 "Flavors you love in food?" "multi-select"
          [ plain_option "chocolate" "Chocolate"; plain_option "caramel" "Caramel";
            plain_option "citrus" "Citrus"; plain_option "berry" "Berry";
            plain_option "nutty" "Nutty"; plain_option "floral" "Floral";
            plain_option "spicy" "Spicy" ]
          (Some 3) None []);
    (4, mkQuestion 4 "Bitterness tolerance?" "slider" [] None (Some (1, 5)%Z)
          [ "Mild"; "Low"; "Medium"; "Strong"; "Intense" ]);
    (5, mkQuestion 5 "Brew method at home?" "radio"
          [ plain_option "drip" "Drip"; plain_option "espresso" "Espresso";
            plain_option "pour-over" "Pour-Over"; plain_option "french-press" "French Press";
            plain_option "pod" "Pod"; plain_option "not-sure" "Not sure" ]
          None None []);
    (6, mkQuestion 6 "Caffeine sensitivity?" "radio"
          [ plain_option "full" "Full"; plain_option "half-caf" "Half-caf";
            plain_option "low-decaf" "Low/Decaf" ]
          None None []) ].

(** [QUIZ_QUESTIONS[key]]. *)
Fixpoint question_at (questions : list (nat * Question)) (key : nat) : option Question :=
  match questions with
  | [] => None
  | (k, q) :: rest => if (k =? key)%nat then Some q else question_at rest key
  end.

(** The option values of a question. *)
Definition option_values (q : Question) : list string := map option_value (question_options q).

Definition currentQuestionData (state : QuizState) : option Question :=
  question_at QUIZ_QUESTIONS (currentQuestion state).

Definition isComplete (state : QuizState) : bool := bool_decide (currentState state = RESULT).

Definition totalQuestions : nat := length QUIZ_QUESTIONS.

Definition canGoBack (state : QuizState) : bool := (1 <? currentQuestion state)%nat.

Definition canGoForward (state : QuizState) : bool :=
  match answers state !! currentQuestion state with
  | Some _ => true
  | None => false
  end.

(** [timeElapsed] at the clock reading [now]; a start time of zero is falsy. *)
Definition timeElapsed (now : Z) (state : QuizState) : Z :=
  match startTime state with
  | Some t => if (t =? 0)%Z then 0%Z else (now - t)%Z
  | None => 0%Z
  end.

(** The states the views lead to. *)
Inductive viewed : QuizState -> Prop :=
  | viewed_initial : viewed initialState
  | viewed_perform (state : QuizState) (call : Call) :
      viewed state -> offered state call = true -> viewed (perform state call).

(** A value [Math.random()] can return: at least 0 and below 1. *)
Definition unit_draw (u : float) : bool := ((0 <=? u) && (u <? 1))%float.

(** A call whose draws are values [Math.random()] can return. *)
Definition draws_in_range (call : Call) : bool :=
  match call with
  | CallNext u1 u2 u3 _ _ => unit_draw u1 && unit_draw u2 && unit_draw u3
  | _ => true
  end.

(** The states the views lead to with such draws. *)
Inductive played : QuizState -> Prop :=
  | played_initial : played initialState
  | played_perform (state : QuizState) (call : Call) :
      played state -> offered state call = true -> draws_in_range call = true ->
      played (perform state call).

(** A call that neither starts nor resets the quiz. *)
Definition keeps_answers (call : Call) : bool :=
  match call with
  | CallStart _ _ | CallReset => false
  | _ => true
  end.

(** *** Vocabulary of the statements about the machine *)

(** The question number a state name stands for. *)
Definition position_ok (state : QuizState) : Prop :=
  match currentState state with
  | IDLE => currentQuestion state = 1
  | QUESTION n => currentQuestion state = n /\ 1 <= n <= 6
  | RESULT => currentQuestion state = 6
  end.

(** Whether every call of a list is offered by the view shown when it is made. *)
Fixpoint all_offered (state : QuizState) (calls : list Call) : bool :=
  match calls with
  | [] => true
  | call :: rest => offered state call && all_offered (perform state call) rest
  end.

(** A skip of the last question. *)
Definition skips_last (state : QuizState) (call : Call) : bool :=
  match call with
  | CallSkip _ _ => (6 <? currentQuestion state + 1)%nat
  | _ => false
  end.

(** The states the views lead to when the last question is never skipped. *)
Inductive shown : QuizState -> Prop :=
  | shown_initial : shown initialState
  | shown_perform (state : QuizState) (call : Call) :
      shown state -> offered state call = true -> skips_last state call = false ->
      shown (perform state call).

(** A result is stored exactly in the result state. *)
Definition result_ok (state : QuizState) : Prop :=
  match currentState state with
  | RESULT => result state <> None
  | _ => result state = None
  end.

(** The fields a change of position leaves alone, and the progress it sets. *)
Definition repositioned (state state' : QuizState) (N : nat) : Prop :=
  currentState state' = QUESTION N
  /\ currentQuestion state' = N
  /\ answers state' = answers state
  /\ result state' = result state
  /\ startTime state' = startTime state
  /\ completionTime state' = completionTime state
  /\ progress state' = position_progress N (Object_keys_length (answers state)).

(** A percentage between 0 and 100. *)
Definition percentage (x : float) : Prop :=
  (0 <=? x)%float = true /\ (x <=? 100)%float = true.

(** A slot that is absent or holds a string. *)
Definition text_or_absent (x : option JsValue) : Prop :=
  match x with
  | Some (VStr _) | None => True
  | Some _ => False
  end.

(** A slot that is absent or holds a slider value. *)
Definition slider_or_absent (x : option JsValue) : Prop :=
  match x with
  | Some (VNum b) => (1 <= b <= 5)%Z
  | None => True
  | Some _ => False
  end.

End QuizContext.

(** ** The quiz view: selecting flavors *)

Module QuizView.

(** [currentQuestionData.maxSelection || 3]. *)
Definition selection_cap (maxSelection : option nat) : nat :=
  match maxSelection with
  | Some n => if (n =? 0)%nat then 3 else n
  | None => 3
  end.

(** [multiSelectAnswers.includes(value)]. *)
Definition selected (multiSelectAnswers : list string) (value : string) : bool :=
  existsb (String.eqb value) multiSelectAnswers.

(** [newAnswers] of [handleAnswerChange] on a multi-select question: a
    selected value is removed, another is appended and the list cut at the
    cap. *)
Definition newAnswers (maxSelection : option nat) (multiSelectAnswers : list string)
    (value : string) : list string :=
  if selected multiSelectAnswers value
  then List.filter (fun a => negb (String.eqb a value)) multiSelectAnswers
  else take (selection_cap maxSelection) (multiSelectAnswers ++ [value]).

(** [isDisabled] of a chip. *)
Definition isDisabled (maxSelection : option nat) (multiSelectAnswers : list string)
    (value : string) : bool :=
  negb (selected multiSelectAnswers value)
  && (selection_cap maxSelection <=? length multiSelectAnswers)%nat.

(** The chips a visitor can click in turn, from an empty selection. *)
Fixpoint clicks (maxSelection : option nat) (multiSelectAnswers : list string)
    (values : list string) : list string :=
  match values with
  | [] => multiSelectAnswers
  | value :: rest => clicks maxSelection (newAnswers maxSelection multiSelectAnswers value) rest
  end.

End QuizView.

Open Scope string_scope.

(** ** Vocabulary of the statements about the derivation *)

(** [{1: 'rich-chocolatey', 2: 'dark', 3: ['chocolate','spicy'], 4: 5, 5: 'espresso', 6: 'full'}] *)
Definition scenario_answers : gmap nat JsValue :=
  list_to_map
    [ (1, VStr "rich-chocolatey"); (2, VStr "dark"); (3, VArr ["chocolate"; "spicy"]);
      (4, VNum 5); (5, VStr "espresso"); (6, VStr "full") ].

(** Every one of the six slots holds ['skipped']. *)
Definition all_skipped : gmap nat JsValue :=
  list_to_map
    [ (1, VStr "skipped"); (2, VStr "skipped"); (3, VStr "skipped");
      (4, VStr "skipped"); (5, VStr "skipped"); (6, VStr "skipped") ].

(** The sum of the character codes of a string. *)
Definition code_sum (s : string) : N :=
  fold_left (fun acc code => (acc + code)%N) (char_codes s) 0%N.

(** The notes of a flavor in [FLAVOR_PROFILES]. *)
Definition notes_of_flavor (flavor : string) : list string :=
  match lookup_key QuizLogic.FLAVOR_PROFILES flavor with
  | Some profile => QuizLogic.profile_notes profile
  | None => []
  end.

(** The names of the members every object literal inherits from
    [Object.prototype].  A table lookup by one of them finds the inherited
    member, not a fallback, and in [generateTastingNotes] reading the notes
    of such a member throws; the embedding looks tables up by their own
    keys, so it follows the source on keys that are none of these. *)
Definition inherited_key (key : string) : bool :=
  existsb (String.eqb key)
    [ "constructor"; "__defineGetter__"; "__defineSetter__"; "hasOwnProperty";
      "__lookupGetter__"; "__lookupSetter__"; "isPrototypeOf"; "propertyIsEnumerable";
      "toString"; "valueOf"; "__proto__"; "toLocaleString" ].

(** A value whose key, and whose elements' keys, are own keys or no keys
    of the tables. *)
Definition plain_key (v : JsValue) : bool := negb (inherited_key (to_string v)).

Definition plain_value (v : JsValue) : bool :=
  plain_key v
  && match v with
     | VArr l => forallb (fun token => negb (inherited_key token)) l
     | _ => true
     end.

(** Answers that hold plain values only. *)
Definition plain_answers (answers : gmap nat JsValue) : bool :=
  forallb plain_value (Object_values answers).

(** The documented default of each slot. *)
Definition slot_defaults : list (nat * JsValue) :=
  [ (1, VStr "black"); (2, VStr "medium"); (3, VArr ["chocolate"]);
    (4, VNum 3); (5, VStr "drip"); (6, VStr "full") ].

(** The answers with the default in every slot that is absent or falsy:
    what [answers[k] || default] reads. *)
Definition substitute_absent (answers : gmap nat JsValue) : gmap nat JsValue :=
  foldr (fun slot acc => <[ slot.1 := or_else (answers !! slot.1) slot.2 ]> acc)
        answers slot_defaults.

(** The answers with the default in every slot that is absent or holds
    ['skipped'], as the specification words the substitution. *)
Definition substitute_absent_or_skipped (answers : gmap nat JsValue) : gmap nat JsValue :=
  foldr (fun slot acc =>
           match answers !! slot.1 with
           | Some v => if strict_eq_str v "skipped" then <[ slot.1 := slot.2 ]> acc else acc
           | None => <[ slot.1 := slot.2 ]> acc
           end)
        answers slot_defaults.

(** Whether a token is among the selected flavors. *)
Definition chosen (flavors : list JsValue) (token : string) : bool :=
  existsb (fun flavor => strict_eq_str flavor token) flavors.

(** The flavor tokens the origin profiles are made of. *)
Definition profile_tokens : list string :=
  [ "floral"; "citrus"; "chocolate"; "caramel"; "spicy"; "nutty"; "berry" ].

(** The selection that holds the tokens marked in [bits]. *)
Fixpoint selection_of (tokens : list string) (bits : list bool) (token : string) : bool :=
  match tokens, bits with
  | t :: tokens', b :: bits' => if String.eqb t token then b else selection_of tokens' bits' token
  | _, _ => false
  end.

(** Every list of [n] marks. *)
Fixpoint all_marks (n : nat) : list (list bool) :=
  match n with
  | 0 => [[]]
  | S n' => (map (cons true) (all_marks n') ++ map (cons false) (all_marks n'))%list
  end.

(** The primary and the secondary origin for a selection of tokens, as
    [generateOriginBlend] picks them. *)
Definition origin_pair (selection : string -> bool) : QuizLogic.Origin * QuizLogic.Origin :=
  let matchingOrigins :=
    List.filter (fun origin => existsb selection (QuizLogic.origin_profile origin))
      QuizLogic.ORIGINS in
  let availableOrigins :=
    if (0 <? length matchingOrigins)%nat then matchingOrigins else QuizLogic.ORIGINS in
  (default QuizLogic.ORIGINS_0 (array_at availableOrigins 0),
   default QuizLogic.ORIGINS_1 (array_at availableOrigins 1)).

(** The check that the two origins of a selection differ by name and that
    the primary one matches whenever some origin does. *)
Definition origin_pair_ok (selection : string -> bool) : bool :=
  let pair := origin_pair selection in
  negb (String.eqb (QuizLogic.origin_name pair.1) (QuizLogic.origin_name pair.2))
  && (if existsb (fun origin => existsb selection (QuizLogic.origin_profile origin))
           QuizLogic.ORIGINS
      then existsb selection (QuizLogic.origin_profile pair.1)
      else true).

(** What a list of values adds to the seed of the name: the character codes
    of the string of each truthy value. *)
Definition values_total (values : list JsValue) : N :=
  fold_right (fun v acc => ((if truthy v then code_sum (to_string v) else 0) + acc)%N) 0%N values.

(** Whether chocolate is among the flavors of the answers: in the array of
    slot 3, or as its single value. *)
Definition chocolate_selected (answers : gmap nat JsValue) : Prop :=
  match answers !! 3 with
  | Some (VArr l) => In "chocolate" l
  | Some (VStr s) => s = "chocolate"
  | _ => False
  end.

(** ** The derivation of [quizLogic.js] on given answer sets *)

Lemma array_at_Some {A : Type} (arr : list A) (i : Z) :
  (0 <= i < Z.of_nat (length arr))%Z -> exists x, array_at arr i = Some x /\ In x arr.
Proof.
  intros [Hlo Hhi]. unfold array_at.
  assert (Hb : ((0 <=? i) && (i <? Z.of_nat (length arr)))%Z = true).
  { apply andb_true_intro. split; [apply Z.leb_le | apply Z.ltb_lt]; assumption. }
  rewrite Hb.
  destruct (lookup_lt_is_Some_2 arr (Z.to_nat i)) as [x Hx]; [lia |].
  exists x. split; [exact Hx |].
  apply list_elem_of_In. eapply list_elem_of_lookup_2. exact Hx.
Qed.

(** C9.  On the answers [{1: 'rich-chocolatey', 2: 'dark', 3: ['chocolate',
    'spicy'], 4: 5, 5: 'espresso', 6: 'full'}] the derivation returns the
    roast level "Dark Roast", the grind "Fine", the caffeine level "Full
    Caffeine", notes made of one note of the chocolate profile and one of
    the spicy profile joined with a finish descriptor, and an origin
    breakdown that splits 55% and 45%. *)
Theorem scenario_result :
  let r := QuizLogic.generateBlendResult scenario_answers in
  roastLevel r = "Dark Roast"%string
  /\ grindSuggestion r = "Fine"%string
  /\ caffeineLevel r = "Full Caffeine"%string
  /\ (exists note1 note2 finish,
        notes r = join " • " [note1; note2; finish]
        /\ In note1 (notes_of_flavor "chocolate")
        /\ In note2 (notes_of_flavor "spicy")
        /\ In finish QuizLogic.finishNotes)
  /\ notes r = "Mocha • Cardamom • Lingering finish"%string
  /\ (exists primary secondary,
        origins r = (QuizLogic.origin_name primary ++ " 55% • "
                       ++ QuizLogic.origin_name secondary ++ " 45%")%string
        /\ In primary QuizLogic.ORIGINS /\ In secondary QuizLogic.ORIGINS)
  /\ origins r = "Colombian Huila 55% • Guatemalan Antigua 45%"%string.
Proof.
  cbv zeta. repeat split; try (vm_compute; reflexivity).
  - exists "Mocha"%string, "Cardamom"%string, "Lingering finish"%string.
    repeat split; try (vm_compute; reflexivity); vm_compute; tauto.
  - exists (QuizLogic.mkOrigin "Colombian Huila" ["chocolate"; "caramel"] "medium"),
           (QuizLogic.mkOrigin "Guatemalan Antigua" ["spicy"; "chocolate"] "full").
    repeat split; try (vm_compute; reflexivity); vm_compute; tauto.
Qed.

(** C4.  With ['skipped'] in all six slots the name index is the
    character-code sum of "skippedskippedskippedskippedskippedskipped"
    modulo the length of the name list and the one flavor note is the
    chocolate profile's, but no finish descriptor follows it: the finish
    index is [NaN], the element pushed is undefined, and the notes end in
    the separator.  The origins are the first two of the table and the
    description is made of the two fallback phrases. *)
Theorem all_skipped_result :
  QuizLogic.generateBlendResult all_skipped
  = {| name := Some "Meridian";
       notes := "Cocoa • ";
       origins := "Ethiopian Yirgacheffe 60% • Colombian Huila 40%";
       roastLevel := "Medium Roast";
       grindSuggestion := "Medium";
       caffeineLevel := "Full Caffeine";
       description := "A carefully crafted blend that matches your taste preferences for perfect coffee experience with expertly crafted character. This blend celebrates the unique flavors you love while maintaining perfect balance in every cup." |}
  /\ QuizLogic.name_seed all_skipped = code_sum "skippedskippedskippedskippedskippedskipped"
  /\ QuizLogic.name_seed all_skipped = 4512%N
  /\ name (QuizLogic.generateBlendResult all_skipped)
     = array_at QuizLogic.BLEND_NAMES
         (Z.of_N (code_sum "skippedskippedskippedskippedskippedskipped"
                  mod N.of_nat (length QuizLogic.BLEND_NAMES)))
  /\ name (QuizLogic.generateBlendResult all_skipped) = Some "Meridian"%string
  /\ PrimFloat.is_nan (QuizLogic.finishIndex (QuizLogic.bitterness_of all_skipped)) = true
  /\ array_get QuizLogic.finishNotes (QuizLogic.finishIndex (QuizLogic.bitterness_of all_skipped))
     = None
  /\ notes (QuizLogic.generateBlendResult all_skipped) = "Cocoa • "%string
  /\ In "Cocoa"%string (notes_of_flavor "chocolate")
  /\ Forall (fun finish => notes (QuizLogic.generateBlendResult all_skipped)
                           <> join " • " ["Cocoa"%string; finish])
       QuizLogic.finishNotes.
Proof.
  repeat split; try (vm_compute; reflexivity).
  - vm_compute; tauto.
  - repeat constructor; vm_compute; discriminate.
Qed.

(** ** The blend name *)

Lemma name_seed_no_values (answers : gmap nat JsValue) :
  List.filter truthy (Object_values answers) = [] -> QuizLogic.name_seed answers = 0%N.
Proof. intros Hnone. unfold QuizLogic.name_seed. rewrite Hnone. reflexivity. Qed.

(** C10.  The name list has 22 entries; for every answers object the blend
    name is defined and is one of them; when no value of the object is
    truthy the seed is 0 and the name is 'Nocturne 03', as it is for the
    empty object. *)
Theorem blend_name_in_range :
  length QuizLogic.BLEND_NAMES = 22
  /\ (forall answers : gmap nat JsValue,
        exists blend, QuizLogic.generateBlendName answers = Some blend
                      /\ In blend QuizLogic.BLEND_NAMES)
  /\ (forall answers : gmap nat JsValue,
        List.filter truthy (Object_values answers) = [] ->
        QuizLogic.name_seed answers = 0%N
        /\ QuizLogic.generateBlendName answers = Some "Nocturne 03")
  /\ QuizLogic.name_seed ∅ = 0%N
  /\ QuizLogic.generateBlendName ∅ = Some "Nocturne 03".
Proof.
  split; [reflexivity |]. split; [| split; [| split; reflexivity]].
  - intros answers. unfold QuizLogic.generateBlendName.
    apply array_at_Some. split; [apply N2Z.is_nonneg |].
    rewrite <- nat_N_Z. apply N2Z.inj_lt. apply N.mod_lt. discriminate.
  - intros answers Hnone. unfold QuizLogic.generateBlendName.
    rewrite (name_seed_no_values answers Hnone). split; reflexivity.
Qed.

Lemma blend_name_in_range_witness :
  List.filter truthy (Object_values {[ 1%nat := VStr "" ]}) = []
  /\ QuizLogic.name_seed {[ 1%nat := VStr "" ]} = 0%N
  /\ QuizLogic.generateBlendName {[ 1%nat := VStr "" ]} = Some "Nocturne 03".
Proof.
  split; [reflexivity |].
  apply (proj1 (proj2 (proj2 blend_name_in_range))). reflexivity.
Defined.

(** ** The defaults of the derivation *)

Lemma or_else_idem (x : option JsValue) (d : JsValue) :
  truthy d = true -> or_else (Some (or_else x d)) d = or_else x d.
Proof.
  intros Hd. destruct x as [v |]; simpl.
  - destruct (truthy v) eqn:Hv; [rewrite Hv | rewrite Hd]; reflexivity.
  - rewrite Hd. reflexivity.
Qed.

Lemma or_else_truthy (x : option JsValue) (d : JsValue) :
  truthy d = true -> truthy (or_else x d) = true.
Proof.
  intros Hd. destruct x as [v |]; simpl; [| exact Hd].
  destruct (truthy v) eqn:Hv; [exact Hv | exact Hd].
Qed.

Lemma substitute_absent_lookup (answers : gmap nat JsValue) (k : nat) (d : JsValue) :
  In (k, d) slot_defaults ->
  substitute_absent answers !! k = Some (or_else (answers !! k) d).
Proof.
  unfold substitute_absent, slot_defaults. simpl.
  intros [H | [H | [H | [H | [H | [H | []]]]]]]; inversion H; subst; clear H;
    repeat (first [ rewrite lookup_insert_eq; reflexivity
                  | rewrite lookup_insert_ne by discriminate ]).
Qed.

Lemma flavors_of_substitute_absent (answers : gmap nat JsValue) :
  QuizLogic.flavors_of (substitute_absent answers) = QuizLogic.flavors_of answers.
Proof.
  unfold QuizLogic.flavors_of.
  rewrite (substitute_absent_lookup answers 3 (VArr ["chocolate"])) by (simpl; tauto).
  destruct (answers !! 3) as [v |]; [| reflexivity].
  unfold or_else. destruct (truthy v) eqn:Hv.
  - destruct v; rewrite ?Hv; reflexivity.
  - destruct v; [| discriminate Hv |]; rewrite Hv; reflexivity.
Qed.

Ltac slot_default k d :=
  rewrite (substitute_absent_lookup _ k d) by (simpl; tauto);
  apply or_else_idem; reflexivity.

(** The fields of the result are those of the answers with the default put
    in every absent or falsy slot; the name is computed from the answers as
    given. *)
Lemma absent_slots_read_defaults (answers : gmap nat JsValue) :
  let r := QuizLogic.generateBlendResult answers in
  let r' := QuizLogic.generateBlendResult (substitute_absent answers) in
  notes r = notes r'
  /\ origins r = origins r'
  /\ roastLevel r = roastLevel r'
  /\ grindSuggestion r = grindSuggestion r'
  /\ caffeineLevel r = caffeineLevel r'
  /\ description r = description r'
  /\ name r = QuizLogic.generateBlendName answers
  /\ Forall (fun slot =>
               exists v, substitute_absent answers !! slot.1 = Some v
                         /\ truthy v = true
                         /\ (answers !! slot.1 = None -> v = slot.2)
                         /\ (answers !! slot.1 = Some (VStr "skipped") -> v = VStr "skipped"))
            slot_defaults.
Proof.
  cbv zeta.
  assert (H1 : QuizLogic.drinkStyle_of (substitute_absent answers) = QuizLogic.drinkStyle_of answers).
  { unfold QuizLogic.drinkStyle_of. slot_default 1 (VStr "black"). }
  assert (H2 : QuizLogic.roastPreference_of (substitute_absent answers)
               = QuizLogic.roastPreference_of answers).
  { unfold QuizLogic.roastPreference_of. slot_default 2 (VStr "medium"). }
  assert (H4 : QuizLogic.bitterness_of (substitute_absent answers) = QuizLogic.bitterness_of answers).
  { unfold QuizLogic.bitterness_of. slot_default 4 (VNum 3). }
  assert (H5 : QuizLogic.brewMethod_of (substitute_absent answers) = QuizLogic.brewMethod_of answers).
  { unfold QuizLogic.brewMethod_of. slot_default 5 (VStr "drip"). }
  assert (H6 : QuizLogic.caffeine_of (substitute_absent answers) = QuizLogic.caffeine_of answers).
  { unfold QuizLogic.caffeine_of. slot_default 6 (VStr "full"). }
  pose proof (flavors_of_substitute_absent answers) as H3.
  unfold QuizLogic.generateBlendResult. cbn [name notes origins roastLevel grindSuggestion caffeineLevel description].
  rewrite H1, H2, H3, H4, H5, H6.
  repeat (split; [reflexivity |]).
  apply Forall_forall. intros [k d] Hin. apply list_elem_of_In in Hin. cbn [fst snd].
  rewrite (substitute_absent_lookup answers k d Hin).
  exists (or_else (answers !! k) d).
  assert (Hd : truthy d = true).
  { unfold slot_defaults in Hin. simpl in Hin.
    destruct Hin as [H | [H | [H | [H | [H | [H | []]]]]]]; inversion H; reflexivity. }
  split; [reflexivity |]. split; [apply or_else_truthy; exact Hd |].
  split; intros Hk; rewrite Hk; reflexivity.
Qed.

(** C3, as the code has it.  On answers of plain values: every field but
    the name is what the derivation computes from the answers with the
    documented default put in each slot that is absent (or falsy), and the
    name is computed from the answers as given.  A slot holding ['skipped']
    is not replaced by its default: a skipped drink style gives the phrase
    'perfect coffee experience' where an absent one gives that of 'black',
    a skipped roast gives 'expertly crafted' where an absent one gives that
    of 'medium', a skipped flavor slot gives the first two origins of the
    table where an absent one gives those matching chocolate; a skipped
    brew method and a skipped caffeine slot give the labels 'Medium' and
    'Full Caffeine' by the fallback of their tables. *)
Theorem defaults_for_absent_slots (answers : gmap nat JsValue) :
  plain_answers answers = true ->
  let r := QuizLogic.generateBlendResult answers in
  let r' := QuizLogic.generateBlendResult (substitute_absent answers) in
  (notes r = notes r'
   /\ origins r = origins r'
   /\ roastLevel r = roastLevel r'
   /\ grindSuggestion r = grindSuggestion r'
   /\ caffeineLevel r = caffeineLevel r'
   /\ description r = description r'
   /\ name r = QuizLogic.generateBlendName answers)
  /\ (answers !! 1 = Some (VStr "skipped") ->
      exists rest,
        description r
        = "A carefully crafted blend that matches your taste preferences for perfect coffee experience with "
            ++ rest)
  /\ (answers !! 1 = None ->
      exists rest,
        description r
        = "A carefully crafted blend that matches your taste preferences for pure coffee experience with "
            ++ rest)
  /\ (answers !! 2 = Some (VStr "skipped") ->
      roastLevel r = "Medium Roast"
      /\ exists style,
           description r
           = "A carefully crafted blend that matches your taste preferences for " ++ style
               ++ " with expertly crafted character. This blend celebrates the unique flavors you love while maintaining perfect balance in every cup.")
  /\ (answers !! 2 = None ->
      roastLevel r = "Medium Roast"
      /\ exists style,
           description r
           = "A carefully crafted blend that matches your taste preferences for " ++ style
               ++ " with well-balanced character. This blend celebrates the unique flavors you love while maintaining perfect balance in every cup.")
  /\ (answers !! 3 = Some (VStr "skipped") ->
      exists percent,
        origins r = "Ethiopian Yirgacheffe " ++ num_to_string percent ++ "% • Colombian Huila "
                      ++ num_to_string (100 - percent) ++ "%")
  /\ (answers !! 3 = None ->
      exists percent,
        origins r = "Colombian Huila " ++ num_to_string percent ++ "% • Guatemalan Antigua "
                      ++ num_to_string (100 - percent) ++ "%")
  /\ (answers !! 5 = Some (VStr "skipped") \/ answers !! 5 = None ->
      grindSuggestion r = "Medium")
  /\ (answers !! 6 = Some (VStr "skipped") \/ answers !! 6 = None ->
      caffeineLevel r = "Full Caffeine").
Proof.
  intros _. cbv zeta.
  split.
  { destruct (absent_slots_read_defaults answers) as (H1 & H2 & H3 & H4 & H5 & H6 & H7 & _).
    repeat split; assumption. }
  unfold QuizLogic.generateBlendResult.
  cbn [description origins roastLevel grindSuggestion caffeineLevel].
  repeat split.
  - intros H. unfold QuizLogic.drinkStyle_of. rewrite H. eexists. reflexivity.
  - intros H. unfold QuizLogic.drinkStyle_of. rewrite H. eexists. reflexivity.
  - unfold QuizLogic.roastPreference_of. rewrite H. reflexivity.
  - unfold QuizLogic.roastPreference_of. rewrite H. eexists. reflexivity.
  - unfold QuizLogic.roastPreference_of. rewrite H. reflexivity.
  - unfold QuizLogic.roastPreference_of. rewrite H. eexists. reflexivity.
  - intros H. unfold QuizLogic.flavors_of. rewrite H. eexists. reflexivity.
  - intros H. unfold QuizLogic.flavors_of. rewrite H. eexists. reflexivity.
  - intros [H | H]; unfold QuizLogic.brewMethod_of; rewrite H; reflexivity.
  - intros [H | H]; unfold QuizLogic.caffeine_of; rewrite H; reflexivity.
Qed.

Lemma defaults_for_absent_slots_witness :
  let answers : gmap nat JsValue :=
    {[ 1 := VStr "skipped"; 2 := VStr "skipped"; 3 := VStr "skipped"; 5 := VStr "skipped" ]} in
  let r := QuizLogic.generateBlendResult answers in
  (exists rest,
     description r
     = "A carefully crafted blend that matches your taste preferences for perfect coffee experience with "
         ++ rest)
  /\ roastLevel r = "Medium Roast"
  /\ (exists percent,
        origins r = "Ethiopian Yirgacheffe " ++ num_to_string percent ++ "% • Colombian Huila "
                      ++ num_to_string (100 - percent) ++ "%")
  /\ grindSuggestion r = "Medium"
  /\ caffeineLevel r = "Full Caffeine".
Proof.
  intros answers.
  assert (Hplain : plain_answers answers = true) by (vm_compute; reflexivity).
  destruct (defaults_for_absent_slots answers Hplain)
    as (_ & H1 & _ & H2 & _ & H3 & _ & H5 & H6).
  cbv zeta.
  split; [apply H1; reflexivity |].
  split; [apply H2; reflexivity |].
  split; [apply H3; reflexivity |].
  split; [apply H5; left; reflexivity | apply H6; right; reflexivity].
Defined.

(** C3 as stated fails where a slot holds ['skipped']: a skipped drink
    style gives the fallback phrase, not the phrase of the default 'black',
    and a skipped flavor slot gives the first two origins of the table, not
    those matching the default 'chocolate'.  It fails for the name where a
    slot is absent: the name of the empty answers is not the name of the
    answers with the defaults in. *)
Lemma skipped_slot_is_not_defaulted :
  description (QuizLogic.generateBlendResult {[ 1%nat := VStr "skipped" ]})
  <> description (QuizLogic.generateBlendResult
                    (substitute_absent_or_skipped {[ 1%nat := VStr "skipped" ]}))
  /\ substitute_absent_or_skipped {[ 1%nat := VStr "skipped" ]} !! 1%nat = Some (VStr "black")
  /\ QuizLogic.drinkStyle_of {[ 1%nat := VStr "skipped" ]} = VStr "skipped"
  /\ origins (QuizLogic.generateBlendResult {[ 3%nat := VStr "skipped" ]})
     = "Ethiopian Yirgacheffe 60% • Colombian Huila 40%"
  /\ origins (QuizLogic.generateBlendResult
                (substitute_absent_or_skipped {[ 3%nat := VStr "skipped" ]}))
     = "Colombian Huila 60% • Guatemalan Antigua 40%"
  /\ name (QuizLogic.generateBlendResult ∅) = Some "Nocturne 03"
  /\ name (QuizLogic.generateBlendResult (substitute_absent_or_skipped ∅)) = Some "Iron Mountain"
  /\ plain_answers {[ 1%nat := VStr "skipped" ]} = true
  /\ plain_answers {[ 3%nat := VStr "skipped" ]} = true
  /\ plain_answers ∅ = true.
Proof.
  repeat split; try (vm_compute; reflexivity).
  vm_compute. discriminate.
Qed.

(** ** The state machine *)

Section Machine.

Import QuizContext.

Lemma reachable_run (calls : list Call) : reachable (run calls).
Proof.
  unfold run. generalize reachable_initial. generalize initialState.
  induction calls as [| call calls IH]; intros state Hstate; simpl.
  - exact Hstate.
  - apply IH. apply reachable_perform. exact Hstate.
Qed.

Lemma position_bounds (state : QuizState) :
  position_ok state -> 1 <= currentQuestion state <= 6.
Proof. unfold position_ok. destruct (currentState state); lia. Qed.

Lemma perform_position (state : QuizState) (call : Call) :
  position_ok state -> position_ok (perform state call).
Proof.
  intros Hpos. pose proof (position_bounds state Hpos) as Hb.
  destruct call; unfold perform, startQuiz, answerQuestion, nextQuestion, previousQuestion,
    skipQuestion, resetQuiz, quizReducer, position_ok, QUESTION_1; simpl.
  - lia.
  - exact Hpos.
  - destruct (Nat.ltb_spec 6 (currentQuestion state + 1)); simpl.
    + destruct (Nat.ltb_spec 6 (currentQuestion state + 1)); simpl; lia.
    + destruct (Nat.ltb_spec 6 (currentQuestion state + 1)); simpl; lia.
  - destruct (Nat.eqb_spec (Nat.max 1 (currentQuestion state - 1)) 1); simpl; lia.
  - destruct (Nat.ltb_spec 6 (currentQuestion state + 1)); simpl; lia.
  - reflexivity.
Qed.

Lemma reachable_position (state : QuizState) : reachable state -> position_ok state.
Proof.
  induction 1 as [| state call _ IH].
  - reflexivity.
  - apply perform_position. exact IH.
Qed.

Lemma reachable_question (state : QuizState) (n : nat) :
  reachable state -> currentState state = QUESTION n ->
  currentQuestion state = n /\ 1 <= n <= 6.
Proof.
  intros Hreach Hname. pose proof (reachable_position state Hreach) as Hpos.
  unfold position_ok in Hpos. rewrite Hname in Hpos. exact Hpos.
Qed.

(** The bonus of the position progress needs no case on the count: with no
    answers the bonus formula is itself zero. *)
Lemma position_progress_formula (question answeredCount : nat) :
  position_progress (question + 1) answeredCount
  = Math_min (nat2float question / 6 * 100 + nat2float answeredCount / 6 * 5)%float 100%float.
Proof.
  unfold position_progress, sixths.
  replace (question + 1 - 1) with question by lia.
  destruct answeredCount as [| n]; reflexivity.
Qed.

(** C6.  From question_6, [nextQuestion] leads to the result state with the
    result stored, progress 100 and the completion time recorded, whatever
    the answers hold; the stored result is the one value the derivation
    returns on the answers of the state. *)
Theorem last_next_completes (state : QuizState) (u1 u2 u3 : float) (nowGenerate nowNext : Z) :
  reachable state ->
  currentState state = QUESTION 6 ->
  let state' := nextQuestion u1 u2 u3 nowGenerate nowNext state in
  currentState state' = RESULT
  /\ result state' = Some (generateBlendResult u1 u2 u3 (answers state))
  /\ result state' <> None
  /\ progress state' = 100%float
  /\ completionTime state' = Some nowNext
  /\ answers state' = answers state
  /\ currentQuestion state' = 6.
Proof.
  intros Hreach Hname.
  destruct (reachable_question state 6 Hreach Hname) as [Hq _].
  intros state'. subst state'. unfold nextQuestion, quizReducer. rewrite Hq. simpl.
  repeat split; try reflexivity. discriminate.
Qed.

Lemma last_next_completes_witness :
  let state := run [ CallStart 0 (Some (VStr "smooth-nutty")); CallSkip 1 1; CallSkip 2 2;
                     CallSkip 3 3; CallSkip 4 4; CallSkip 5 5 ] in
  let state' := nextQuestion 0 0.5 0.5 7 8 state in
  currentState state' = RESULT
  /\ result state' = Some (generateBlendResult 0 0.5 0.5 (answers state))
  /\ result state' <> None
  /\ progress state' = 100%float
  /\ completionTime state' = Some 8%Z
  /\ answers state' = answers state
  /\ currentQuestion state' = 6.
Proof.
  apply (last_next_completes _ 0 0.5 0.5 7 8); [apply reachable_run | reflexivity].
Defined.

(** C7.  [answerQuestion] keeps the state name and the question, stores the
    value under the question id and leaves the other ids, the result and
    the times as they were; the progress is the number of ids answered
    after the call, over six, times a hundred, and that number is the one
    before the call when the id was answered already and one more when it
    was not. *)
Theorem answer_upserts (state : QuizState) (questionId : nat) (answer : JsValue) :
  let state' := answerQuestion questionId answer state in
  currentState state' = currentState state
  /\ currentQuestion state' = currentQuestion state
  /\ answers state' !! questionId = Some answer
  /\ (forall other, other <> questionId -> answers state' !! other = answers state !! other)
  /\ result state' = result state
  /\ startTime state' = startTime state
  /\ completionTime state' = completionTime state
  /\ progress state' = (nat2float (size (dom (answers state'))) / 6 * 100)%float
  /\ size (dom (answers state'))
     = if decide (questionId ∈ dom (answers state))
       then size (dom (answers state))
       else S (size (dom (answers state))).
Proof.
  cbv zeta. unfold answerQuestion, quizReducer, Object_keys_length, sixths. simpl.
  repeat split.
  - apply lookup_insert_eq.
  - intros other Hother. apply lookup_insert_ne. congruence.
  - rewrite size_dom. reflexivity.
  - rewrite !size_dom. destruct (decide (questionId ∈ dom (answers state))) as [Hin | Hout].
    + apply elem_of_dom in Hin. destruct Hin as [old Hold].
      rewrite <- (insert_delete_id (answers state) questionId old Hold) at 2.
      rewrite <- insert_delete_eq.
      rewrite !map_size_insert_None by apply lookup_delete_eq. reflexivity.
    + apply not_elem_of_dom in Hout. apply map_size_insert_None. exact Hout.
Qed.

(** C8.  From question_N with N below six, [nextQuestion] leads to
    question_(N+1) with progress [min((N/6)*100 + (count/6)*5, 100)], where
    [count] is the number of ids in the answers, and changes nothing else. *)
Theorem next_advances (state : QuizState) (N : nat) (u1 u2 u3 : float) (nowGenerate nowNext : Z) :
  reachable state ->
  currentState state = QUESTION N ->
  N < 6 ->
  let state' := nextQuestion u1 u2 u3 nowGenerate nowNext state in
  1 <= N
  /\ currentState state' = QUESTION (N + 1)
  /\ currentQuestion state' = N + 1
  /\ progress state'
     = Math_min (nat2float N / 6 * 100
                 + nat2float (Object_keys_length (answers state)) / 6 * 5)%float 100%float
  /\ answers state' = answers state
  /\ result state' = result state
  /\ startTime state' = startTime state
  /\ completionTime state' = completionTime state.
Proof.
  intros Hreach Hname Hlt.
  destruct (reachable_question state N Hreach Hname) as [Hq [Hlo _]].
  assert (Hstay : (6 <? N + 1)%nat = false) by (apply Nat.ltb_ge; lia).
  intros state'. subst state'. unfold nextQuestion. rewrite Hq, Hstay.
  unfold quizReducer. rewrite Hq, Hstay. simpl.
  repeat split; try reflexivity; try assumption.
  apply position_progress_formula.
Qed.

Lemma next_advances_witness :
  let state := run [ CallStart 0 (Some (VStr "bright-fruity")) ] in
  let state' := nextQuestion 0 0 0 1 2 state in
  1 <= 1
  /\ currentState state' = QUESTION (1 + 1)
  /\ currentQuestion state' = 1 + 1
  /\ progress state'
     = Math_min (nat2float 1 / 6 * 100
                 + nat2float (Object_keys_length (answers state)) / 6 * 5)%float 100%float
  /\ answers state' = answers state
  /\ result state' = result state
  /\ startTime state' = startTime state
  /\ completionTime state' = completionTime state.
Proof.
  apply (next_advances _ 1 0 0 0 1 2); [apply reachable_run | reflexivity | lia].
Defined.

(** *** Skipping *)

(** C2, as the code has it.  Below the last question, [skipQuestion] and
    [answerQuestion] with ['skipped'] followed by [nextQuestion] lead to the
    same state name, question, answers, result and times; the progress
    differs: the skip leaves the answered count over six, times a hundred,
    the pair leaves the position progress of the next question. *)
Theorem skip_below_last (state : QuizState) (now : Z) (questionId : nat)
    (u1 u2 u3 : float) (nowGenerate nowNext : Z) :
  currentQuestion state < 6 ->
  let skipped := skipQuestion now questionId state in
  let answered :=
    nextQuestion u1 u2 u3 nowGenerate nowNext (answerQuestion questionId (VStr "skipped") state) in
  currentState skipped = currentState answered
  /\ currentQuestion skipped = currentQuestion answered
  /\ answers skipped = answers answered
  /\ answers skipped = <[ questionId := VStr "skipped" ]> (answers state)
  /\ result skipped = result answered
  /\ startTime skipped = startTime answered
  /\ completionTime skipped = completionTime answered
  /\ progress skipped
     = (nat2float (Object_keys_length (answers skipped)) / 6 * 100)%float
  /\ progress answered
     = Math_min (nat2float (currentQuestion state) / 6 * 100
                 + nat2float (Object_keys_length (answers skipped)) / 6 * 5)%float 100%float.
Proof.
  intros Hlt.
  assert (Hstay : (6 <? currentQuestion state + 1)%nat = false) by (apply Nat.ltb_ge; lia).
  intros skipped answered. subst skipped answered.
  unfold skipQuestion, nextQuestion, answerQuestion.
  cbn [quizReducer currentQuestion answers]. rewrite Hstay.
  cbn [quizReducer currentQuestion answers]. rewrite Hstay.
  cbn [currentState currentQuestion answers result startTime completionTime progress].
  repeat split; try reflexivity.
  apply position_progress_formula.
Qed.

Lemma skip_below_last_witness :
  let state := run [ CallStart 0 None ] in
  let skipped := skipQuestion 1 1 state in
  let answered := nextQuestion 0 0 0 2 3 (answerQuestion 1 (VStr "skipped") state) in
  currentState skipped = currentState answered
  /\ currentQuestion skipped = currentQuestion answered
  /\ answers skipped = answers answered
  /\ answers skipped = <[ 1%nat := VStr "skipped" ]> (answers state)
  /\ result skipped = result answered
  /\ startTime skipped = startTime answered
  /\ completionTime skipped = completionTime answered
  /\ progress skipped
     = (nat2float (Object_keys_length (answers skipped)) / 6 * 100)%float
  /\ progress answered
     = Math_min (nat2float (currentQuestion state) / 6 * 100
                 + nat2float (Object_keys_length (answers skipped)) / 6 * 5)%float 100%float.
Proof.
  apply (skip_below_last (run [ CallStart 0 None ]) 1 1 0 0 0 2 3). vm_compute. lia.
Defined.

(** C2 as stated fails on the first question already: after a start with
    no first answer, skipping question 1 leaves a smaller progress than
    answering it with ['skipped'] and going on. *)
Lemma skip_differs_from_answer_then_next :
  let state := run [ CallStart 0 None ] in
  let skipped := skipQuestion 1 1 state in
  let answered := nextQuestion 0 0 0 2 3 (answerQuestion 1 (VStr "skipped") state) in
  reachable state
  /\ progress skipped = (nat2float 1 / 6 * 100)%float
  /\ progress answered = Math_min (nat2float 1 / 6 * 100 + nat2float 1 / 6 * 5)%float 100%float
  /\ (progress skipped <? progress answered)%float = true
  /\ skipped <> answered.
Proof.
  cbv zeta. split; [apply reachable_run |].
  repeat split; try (vm_compute; reflexivity).
  intros Heq.
  apply (f_equal (fun s => (progress s <? 17)%float)) in Heq.
  vm_compute in Heq. discriminate Heq.
Qed.

(** *** The result and the result state *)

(** C1.  Starting the quiz and skipping each of the six questions, all of
    it offered by the views, ends in the result state with no result
    stored: SKIP_QUESTION past the sixth question sets the state name and
    the completion time and never generates the result. *)
Theorem last_skip_leaves_result_absent :
  let calls := [ CallStart 0 (Some (VStr "bright-fruity")); CallSkip 1 1; CallSkip 2 2;
                 CallSkip 3 3; CallSkip 4 4; CallSkip 5 5; CallSkip 6 6 ] in
  reachable (run calls)
  /\ all_offered initialState calls = true
  /\ currentState (run calls) = RESULT
  /\ result (run calls) = None
  /\ completionTime (run calls) = Some 6%Z.
Proof.
  cbv zeta. split; [apply reachable_run |].
  repeat split; vm_compute; reflexivity.
Qed.

Lemma shown_reachable (state : QuizState) : shown state -> reachable state.
Proof. induction 1; [apply reachable_initial | apply reachable_perform; assumption]. Qed.

Lemma shown_result_ok (state : QuizState) : shown state -> result_ok state.
Proof.
  induction 1 as [| state call Hshown IH Hoffered Hlast]; [reflexivity |].
  pose proof (reachable_position state (shown_reachable state Hshown)) as Hpos.
  unfold result_ok, position_ok, offered in *.
  destruct (currentState state) eqn:Hname; destruct call; try discriminate Hoffered;
    unfold perform, startQuiz, answerQuestion, nextQuestion, previousQuestion, skipQuestion,
      resetQuiz.
  - exact IH.
  - cbn [quizReducer currentState result]. rewrite Hname. exact IH.
  - destruct (6 <? currentQuestion state + 1)%nat eqn:Hend.
    + cbn [quizReducer currentQuestion]. rewrite Hend. cbn. discriminate.
    + cbn [quizReducer]. rewrite Hend. cbn. exact IH.
  - cbn [quizReducer currentState result].
    destruct (Nat.max 1 (currentQuestion state - 1) =? 1)%nat; exact IH.
  - simpl in Hlast. cbn [quizReducer]. rewrite Hlast. cbn. exact IH.
  - reflexivity.
Qed.

(** When the last question is never skipped, a result is stored exactly in
    the result state. *)
Lemma result_iff_complete_without_last_skip (state : QuizState) :
  shown state -> (result state <> None <-> currentState state = RESULT).
Proof.
  intros Hshown. pose proof (shown_result_ok state Hshown) as Hok.
  unfold result_ok in Hok. destruct (currentState state); split; intros H;
    try congruence; try discriminate H.
Qed.

(** The provider does not guard its actions by the state: going back from
    the result state, which no view offers, leaves the result stored in a
    question state. *)
Lemma previous_after_completion_keeps_result :
  let state := run [ CallStart 0 None; CallNext 0 0 0 1 1; CallNext 0 0 0 2 2;
                     CallNext 0 0 0 3 3; CallNext 0 0 0 4 4; CallNext 0 0 0 5 5;
                     CallNext 0 0 0 6 7 ] in
  currentState state = RESULT
  /\ offered state CallPrevious = false
  /\ currentState (previousQuestion state) = QUESTION 5
  /\ result (previousQuestion state) = result state
  /\ result state <> None.
Proof.
  cbv zeta. repeat split; try (vm_compute; reflexivity).
  vm_compute. discriminate.
Qed.

(** *** The derivation the provider calls *)

(** C5.  The derivation called on completion is not a function of the
    answers alone: the origins and the finish come from [Math.random], so
    two calls on the same (here empty) answers differ in both, and so do
    the results stored by two completions of the same quiz; the name, the
    roast, the grind, the caffeine level and the description do not depend
    on the draws. *)
Theorem completion_result_varies_with_draws :
  origins (generateBlendResult 0 0 0 ∅) = "Ethiopian Yirgacheffe 60% • Ethiopian Yirgacheffe 40%"
  /\ origins (generateBlendResult 0.5 0.5 0.5 ∅)
     = "Jamaican Blue Mountain 60% • Jamaican Blue Mountain 40%"
  /\ notes (generateBlendResult 0 0 0 ∅) = "Dark chocolate • Smooth finish"
  /\ notes (generateBlendResult 0.5 0.5 0.5 ∅) = "Dark chocolate • Clean finish"
  /\ generateBlendResult 0 0 0 ∅ <> generateBlendResult 0.5 0.5 0.5 ∅
  /\ (let state := run [ CallStart 0 None; CallNext 0 0 0 1 1; CallNext 0 0 0 2 2;
                         CallNext 0 0 0 3 3; CallNext 0 0 0 4 4; CallNext 0 0 0 5 5 ] in
      currentState state = QUESTION 6
      /\ result (nextQuestion 0 0 0 6 7 state) <> result (nextQuestion 0.5 0.5 0.5 6 7 state))
  /\ (forall (answers : gmap nat JsValue) (u1 u2 u3 v1 v2 v3 : float),
        let r := generateBlendResult u1 u2 u3 answers in
        let r' := generateBlendResult v1 v2 v3 answers in
        name r = name r' /\ roastLevel r = roastLevel r'
        /\ grindSuggestion r = grindSuggestion r' /\ caffeineLevel r = caffeineLevel r'
        /\ description r = description r').
Proof.
  repeat split; try (vm_compute; reflexivity).
  - vm_compute. discriminate.
  - vm_compute. discriminate.
Qed.

End Machine.

(** ** Further properties of the state machine *)

Section MachineMore.

Import QuizContext.

Lemma viewed_reachable (state : QuizState) : viewed state -> reachable state.
Proof. induction 1; [apply reachable_initial | apply reachable_perform; assumption]. Qed.

(** X1.  In every reachable state the current question is one of the six,
    the question data of the provider is defined and is that question's,
    and the state name agrees with the question number: question_n only at
    question n, the result state only at question 6, idle only at
    question 1. *)
Theorem reachable_question_defined (state : QuizState) :
  reachable state ->
  1 <= currentQuestion state <= totalQuestions
  /\ (exists q, currentQuestionData state = Some q /\ question_id q = currentQuestion state)
  /\ (forall n, currentState state = QUESTION n -> n = currentQuestion state)
  /\ (currentState state = RESULT -> currentQuestion state = 6)
  /\ (currentState state = IDLE -> currentQuestion state = 1)
  /\ canGoBack state = negb (currentQuestion state =? 1)%nat.
Proof.
  intros Hreach. pose proof (reachable_position state Hreach) as Hpos.
  pose proof (position_bounds state Hpos) as [Hlo Hhi].
  unfold position_ok in Hpos.
  split; [split; [exact Hlo | exact Hhi] |]. split.
  - unfold currentQuestionData.
    destruct (currentQuestion state) as [| [| [| [| [| [| [| n]]]]]]]; try lia;
      eexists; split; reflexivity.
  - repeat split.
    + intros n Hn. rewrite Hn in Hpos. lia.
    + intros Hn. rewrite Hn in Hpos. exact Hpos.
    + intros Hn. rewrite Hn in Hpos. exact Hpos.
    + unfold canGoBack. destruct (currentQuestion state) as [| [| n]]; try lia; reflexivity.
Qed.

Lemma reachable_question_defined_witness :
  let state := run [ CallStart 0 None; CallNext 0 0 0 1 1; CallSkip 2 2; CallPrevious ] in
  1 <= currentQuestion state <= totalQuestions
  /\ (exists q, currentQuestionData state = Some q /\ question_id q = currentQuestion state)
  /\ (forall n, currentState state = QUESTION n -> n = currentQuestion state)
  /\ (currentState state = RESULT -> currentQuestion state = 6)
  /\ (currentState state = IDLE -> currentQuestion state = 1)
  /\ canGoBack state = negb (currentQuestion state =? 1)%nat.
Proof. apply reachable_question_defined. apply reachable_run. Defined.

(** X2.  Answering, going on, going back and skipping never remove an
    answer: an id answered before the call is answered after it, with the
    same value unless the call answers that id (the new value) or skips it
    (['skipped'], which replaces a value given earlier). *)
Theorem answers_never_removed (state : QuizState) (call : Call) (k : nat) (v : JsValue) :
  keeps_answers call = true ->
  answers state !! k = Some v ->
  exists v', answers (perform state call) !! k = Some v'
             /\ match call with
                | CallAnswer questionId answer => v' = if decide (questionId = k) then answer else v
                | CallSkip _ questionId => v' = if decide (questionId = k) then VStr "skipped" else v
                | _ => v' = v
                end.
Proof.
  intros Hkeeps Hk.
  destruct call; try discriminate Hkeeps;
    unfold perform, answerQuestion, nextQuestion, previousQuestion, skipQuestion.
  - cbn [quizReducer answers]. destruct (decide (questionId = k)) as [-> | Hne].
    + exists answer. split; [apply lookup_insert_eq | reflexivity].
    + exists v. split; [rewrite lookup_insert_ne by exact Hne; exact Hk | reflexivity].
  - exists v. split; [| reflexivity].
    destruct (6 <? currentQuestion state + 1)%nat eqn:Hend.
    + cbn [quizReducer currentQuestion]. rewrite Hend. exact Hk.
    + cbn [quizReducer]. rewrite Hend. exact Hk.
  - exists v. split; [exact Hk | reflexivity].
  - destruct (decide (questionId = k)) as [-> | Hne].
    + exists (VStr "skipped"). split; [| reflexivity].
      cbn [quizReducer]. destruct (6 <? currentQuestion state + 1)%nat; apply lookup_insert_eq.
    + exists v. split; [| reflexivity].
      cbn [quizReducer]. destruct (6 <? currentQuestion state + 1)%nat;
        cbn [answers]; rewrite lookup_insert_ne by exact Hne; exact Hk.
Qed.

Lemma answers_never_removed_witness :
  let state := run [ CallStart 0 (Some (VStr "smooth-nutty")) ] in
  exists v', answers (perform state (CallSkip 1 1)) !! 1 = Some v'
             /\ v' = if decide (1 = 1) then VStr "skipped" else VStr "smooth-nutty".
Proof.
  apply (answers_never_removed (run [ CallStart 0 (Some (VStr "smooth-nutty")) ])
           (CallSkip 1 1) 1 (VStr "smooth-nutty")); reflexivity.
Defined.

(** X3.  On question N, going on and back (N below six) and going back and
    on (N above one) both return to question N with the answers, the
    result and the times untouched; the progress is then the position
    progress of question N, so a state whose progress was that already is
    restored exactly. *)
Theorem next_previous_round_trip (state : QuizState) (N : nat)
    (u1 u2 u3 : float) (nowGenerate nowNext : Z) :
  reachable state ->
  currentState state = QUESTION N ->
  (N < 6 ->
     repositioned state (previousQuestion (nextQuestion u1 u2 u3 nowGenerate nowNext state)) N)
  /\ (2 <= N ->
        repositioned state (nextQuestion u1 u2 u3 nowGenerate nowNext (previousQuestion state)) N)
  /\ (N < 6 ->
        progress state = position_progress N (Object_keys_length (answers state)) ->
        previousQuestion (nextQuestion u1 u2 u3 nowGenerate nowNext state) = state).
Proof.
  intros Hreach Hname.
  destruct (reachable_question state N Hreach Hname) as [Hq [Hlo Hhi]].
  assert (Hback : forall (H : N < 6),
            repositioned state
              (previousQuestion (nextQuestion u1 u2 u3 nowGenerate nowNext state)) N).
  { intros Hlt.
    assert (Hstay : (6 <? N + 1)%nat = false) by (apply Nat.ltb_ge; lia).
    unfold repositioned, previousQuestion, nextQuestion. rewrite Hq, Hstay.
    cbn [quizReducer]. rewrite Hq, Hstay.
    cbn [currentState currentQuestion answers result startTime completionTime progress].
    replace (Nat.max 1 (N + 1 - 1)) with N by lia.
    destruct (Nat.eqb_spec N 1) as [-> | _]; repeat split; reflexivity. }
  split; [exact Hback |]. split.
  - intros Hge.
    assert (Hprev : Nat.max 1 (N - 1) = N - 1) by lia.
    assert (Hstay : (6 <? N - 1 + 1)%nat = false) by (apply Nat.ltb_ge; lia).
    unfold repositioned, previousQuestion, nextQuestion.
    cbn [quizReducer currentQuestion]. rewrite Hq, Hprev, Hstay.
    cbn [quizReducer currentQuestion]. rewrite Hstay.
    cbn [currentState currentQuestion answers result startTime completionTime progress].
    replace (N - 1 + 1) with N by lia.
    repeat split; reflexivity.
  - intros Hlt Hprogress.
    destruct (Hback Hlt) as (H1 & H2 & H3 & H4 & H5 & H6 & H7).
    destruct (previousQuestion (nextQuestion u1 u2 u3 nowGenerate nowNext state)) as [a b c d e f g].
    destruct state as [a0 b0 c0 d0 e0 f0 g0].
    cbn [currentState currentQuestion answers result startTime completionTime progress] in *.
    subst. reflexivity.
Qed.

Lemma next_previous_round_trip_witness :
  let state := run [ CallStart 0 None; CallNext 0 0 0 1 1 ] in
  (2 < 6 -> repositioned state (previousQuestion (nextQuestion 0 0 0 2 3 state)) 2)
  /\ (2 <= 2 -> repositioned state (nextQuestion 0 0 0 2 3 (previousQuestion state)) 2)
  /\ (2 < 6 ->
        progress state = position_progress 2 (Object_keys_length (answers state)) ->
        previousQuestion (nextQuestion 0 0 0 2 3 state) = state).
Proof.
  apply (next_previous_round_trip (run [ CallStart 0 None; CallNext 0 0 0 1 1 ]) 2 0 0 0 2 3);
    [apply reachable_run | reflexivity].
Defined.

End MachineMore.

Section ViewedStates.

Import QuizContext.

Lemma viewed_position (state : QuizState) : viewed state -> 1 <= currentQuestion state <= 6.
Proof.
  intros Hviewed. apply position_bounds, reachable_position, viewed_reachable. exact Hviewed.
Qed.

Lemma six_ids_at_most (ids : gset nat) :
  (forall k, k ∈ ids -> 1 <= k <= 6) -> size ids <= 6.
Proof.
  intros Hids.
  assert (Hsub : ids ⊆ set_seq 1 6).
  { intros k Hk. apply elem_of_set_seq. specialize (Hids k Hk). lia. }
  apply subseteq_size in Hsub. rewrite size_set_seq in Hsub. exact Hsub.
Qed.

(** X4.  In every state the views lead to, the answers hold ids of the six
    questions only, so at most six of them. *)
Theorem viewed_answer_ids (state : QuizState) :
  viewed state ->
  (forall k, k ∈ dom (answers state) -> 1 <= k <= 6)
  /\ Object_keys_length (answers state) <= 6.
Proof.
  intros Hviewed.
  assert (Hids : forall k, k ∈ dom (answers state) -> 1 <= k <= 6).
  { induction Hviewed as [| state call Hviewed IH Hoffered].
    - intros k Hk. cbn in Hk. rewrite dom_empty_L in Hk. set_solver.
    - pose proof (viewed_position state Hviewed) as Hpos.
      unfold offered in Hoffered.
      destruct (currentState state) eqn:Hname; destruct call; try discriminate Hoffered;
        unfold perform, startQuiz, answerQuestion, nextQuestion, previousQuestion,
          skipQuestion, resetQuiz; intros k.
      + cbn [quizReducer answers]. destruct firstAnswer as [v |].
        * destruct (truthy v).
          -- rewrite dom_singleton_L. intros Hk. apply elem_of_singleton in Hk. lia.
          -- rewrite dom_empty_L. set_solver.
        * rewrite dom_empty_L. set_solver.
      + cbn [quizReducer answers]. apply Nat.eqb_eq in Hoffered. subst questionId.
        rewrite dom_insert_L. intros Hk. apply elem_of_union in Hk as [Hk | Hk].
        * apply elem_of_singleton in Hk. lia.
        * apply IH. exact Hk.
      + destruct (6 <? currentQuestion state + 1)%nat eqn:Hend.
        * cbn [quizReducer currentQuestion]. rewrite Hend. apply IH.
        * cbn [quizReducer]. rewrite Hend. apply IH.
      + apply IH.
      + apply Nat.eqb_eq in Hoffered. subst questionId.
        assert (Hdom : dom (answers (quizReducer now state (SKIP_QUESTION (currentQuestion state))))
                       = {[ currentQuestion state ]} ∪ dom (answers state)).
        { cbn [quizReducer]. destruct (6 <? currentQuestion state + 1)%nat;
            cbn [answers]; apply dom_insert_L. }
        rewrite Hdom. intros Hk. apply elem_of_union in Hk as [Hk | Hk].
        * apply elem_of_singleton in Hk. lia.
        * apply IH. exact Hk.
      + cbn. rewrite dom_empty_L. set_solver. }
  split; [exact Hids |].
  unfold Object_keys_length. rewrite <- size_dom. apply six_ids_at_most. exact Hids.
Qed.

Lemma viewed_answer_ids_witness :
  let state := run [ CallStart 0 (Some (VStr "smooth-nutty")); CallSkip 1 1;
                     CallAnswer 2 (VStr "dark") ] in
  (forall k, k ∈ dom (answers state) -> 1 <= k <= 6)
  /\ Object_keys_length (answers state) <= 6.
Proof.
  apply viewed_answer_ids.
  apply (viewed_perform _ (CallAnswer 2 (VStr "dark"))); [| reflexivity].
  apply (viewed_perform _ (CallSkip 1 1)); [| reflexivity].
  apply (viewed_perform _ (CallStart 0 (Some (VStr "smooth-nutty")))); [| reflexivity].
  apply viewed_initial.
Defined.

Lemma sixths_percentage (n : nat) : n <= 6 -> percentage (sixths n).
Proof.
  intros Hn. do 7 (destruct n as [| n]; [split; vm_compute; reflexivity |]). lia.
Qed.

Lemma position_progress_percentage (question answeredCount : nat) :
  question <= 6 -> answeredCount <= 6 -> percentage (position_progress question answeredCount).
Proof.
  intros Hq Hc.
  do 7 (destruct question as [| question];
        [do 7 (destruct answeredCount as [| answeredCount];
               [split; vm_compute; reflexivity |]); lia |]).
  lia.
Qed.

(** X5.  In every state the views lead to, the progress is a percentage:
    at least 0 and at most 100. *)
Theorem viewed_progress_percentage (state : QuizState) :
  viewed state -> (0 <=? progress state)%float = true /\ (progress state <=? 100)%float = true.
Proof.
  intros Hviewed. change (percentage (progress state)).
  destruct Hviewed as [| state call Hviewed Hoffered]; [split; reflexivity |].
  pose proof (viewed_answer_ids _ (viewed_perform state call Hviewed Hoffered)) as [_ Hnew].
  pose proof (viewed_answer_ids _ Hviewed) as [_ Hold].
  pose proof (viewed_position state Hviewed) as Hpos.
  unfold offered in Hoffered.
  destruct (currentState state) eqn:Hname; destruct call; try discriminate Hoffered;
    unfold perform, startQuiz, answerQuestion, nextQuestion, previousQuestion,
      skipQuestion, resetQuiz in *.
  - cbn [quizReducer progress]. destruct (given firstAnswer); split; reflexivity.
  - cbn [quizReducer progress answers] in *. apply sixths_percentage. exact Hnew.
  - destruct (6 <? currentQuestion state + 1)%nat eqn:Hend.
    + cbn [quizReducer currentQuestion]. rewrite Hend. split; reflexivity.
    + cbn [quizReducer]. rewrite Hend. cbn [progress].
      apply Nat.ltb_ge in Hend. apply position_progress_percentage; [lia | exact Hold].
  - cbn [quizReducer progress]. apply position_progress_percentage; [lia | exact Hold].
  - cbn [quizReducer] in *. destruct (6 <? currentQuestion state + 1)%nat;
      cbn [progress answers] in *; apply sixths_percentage; exact Hnew.
  - split; reflexivity.
Qed.

Lemma viewed_progress_percentage_witness :
  let state := run [ CallStart 0 (Some (VStr "smooth-nutty")); CallSkip 1 1 ] in
  (0 <=? progress state)%float = true /\ (progress state <=? 100)%float = true.
Proof.
  apply viewed_progress_percentage.
  apply (viewed_perform _ (CallSkip 1 1)); [| reflexivity].
  apply (viewed_perform _ (CallStart 0 (Some (VStr "smooth-nutty")))); [| reflexivity].
  apply viewed_initial.
Defined.

End ViewedStates.

Section ViewedResult.

Import QuizContext.

(** X6.  In every state the views lead to, with draws [Math.random] can
    return, a stored result is stored in the result state and is what the
    derivation returns, for three draws that are at least 0 and below 1, on
    the answers stored beside it; outside the result state none is
    stored. *)
Theorem played_result_of_answers (state : QuizState) :
  played state ->
  (currentState state <> RESULT -> result state = None)
  /\ (forall r, result state = Some r ->
        currentState state = RESULT
        /\ exists u1 u2 u3,
             unit_draw u1 = true /\ unit_draw u2 = true /\ unit_draw u3 = true
             /\ r = generateBlendResult u1 u2 u3 (answers state)).
Proof.
  induction 1 as [| state call Hplayed [IHnone IHsome] Hoffered Hdraws].
  - split; [reflexivity | discriminate].
  - unfold offered in Hoffered.
    destruct (currentState state) eqn:Hname; destruct call; try discriminate Hoffered;
      unfold perform, startQuiz, answerQuestion, nextQuestion, previousQuestion,
        skipQuestion, resetQuiz.
    + cbn [quizReducer currentState result]. rewrite IHnone by discriminate.
      split; [reflexivity | discriminate].
    + cbn [quizReducer currentState result]. rewrite IHnone by discriminate.
      split; [reflexivity | discriminate].
    + destruct (6 <? currentQuestion state + 1)%nat eqn:Hend.
      * cbn [quizReducer currentQuestion]. rewrite Hend.
        cbn [currentState result answers]. split; [congruence |].
        intros r Hr. injection Hr as <-. split; [reflexivity |].
        cbn [draws_in_range] in Hdraws.
        apply andb_prop in Hdraws as [Hdraws H3]. apply andb_prop in Hdraws as [H1 H2].
        exists u1, u2, u3. repeat split; assumption.
      * cbn [quizReducer]. rewrite Hend. cbn [currentState result].
        rewrite IHnone by discriminate. split; [reflexivity | discriminate].
    + cbn [quizReducer currentState result]. rewrite IHnone by discriminate.
      split; [reflexivity | discriminate].
    + cbn [quizReducer]. destruct (6 <? currentQuestion state + 1)%nat;
        cbn [currentState result]; rewrite IHnone by discriminate;
        (split; [reflexivity | discriminate]).
    + split; [reflexivity | discriminate].
Qed.

Lemma played_result_of_answers_witness :
  let state := run [ CallStart 0 (Some (VStr "smooth-nutty")); CallNext 0 0 0 1 1;
                     CallNext 0 0 0 2 2; CallNext 0 0 0 3 3; CallNext 0 0 0 4 4;
                     CallNext 0 0 0 5 5; CallNext 0.5 0.25 0.75 6 7 ] in
  currentState state = RESULT
  /\ result state = Some (generateBlendResult 0.5 0.25 0.75 (answers state))
  /\ origins (generateBlendResult 0.5 0.25 0.75 (answers state))
     = "Jamaican Blue Mountain 60% • Guatemalan Antigua 40%"
  /\ (currentState state <> RESULT -> result state = None)
  /\ (forall r, result state = Some r ->
        currentState state = RESULT
        /\ exists u1 u2 u3,
             unit_draw u1 = true /\ unit_draw u2 = true /\ unit_draw u3 = true
             /\ r = generateBlendResult u1 u2 u3 (answers state)).
Proof.
  cbv zeta. split; [reflexivity |]. split; [reflexivity |]. split; [vm_compute; reflexivity |].
  apply played_result_of_answers.
  apply (played_perform _ (CallNext 0.5 0.25 0.75 6 7)); [| reflexivity | reflexivity].
  apply (played_perform _ (CallNext 0 0 0 5 5)); [| reflexivity | reflexivity].
  apply (played_perform _ (CallNext 0 0 0 4 4)); [| reflexivity | reflexivity].
  apply (played_perform _ (CallNext 0 0 0 3 3)); [| reflexivity | reflexivity].
  apply (played_perform _ (CallNext 0 0 0 2 2)); [| reflexivity | reflexivity].
  apply (played_perform _ (CallNext 0 0 0 1 1)); [| reflexivity | reflexivity].
  apply (played_perform _ (CallStart 0 (Some (VStr "smooth-nutty")))); [| reflexivity | reflexivity].
  apply played_initial.
Defined.

(** X7.  In every state the views lead to, a start time is recorded
    exactly outside the idle state and a completion time exactly in the
    result state; in the idle state the elapsed time reads zero. *)
Theorem viewed_times (state : QuizState) (now : Z) :
  viewed state ->
  (startTime state = None <-> currentState state = IDLE)
  /\ (completionTime state = None <-> currentState state <> RESULT)
  /\ (currentState state = IDLE -> timeElapsed now state = 0%Z).
Proof.
  intros Hviewed.
  assert (Hinv : (startTime state = None <-> currentState state = IDLE)
                 /\ (completionTime state = None <-> currentState state <> RESULT)).
  { induction Hviewed as [| state call Hviewed [IHstart IHdone] Hoffered].
    - split; split; intros; [reflexivity | reflexivity | discriminate | reflexivity].
    - unfold offered in Hoffered.
      destruct (currentState state) eqn:Hname; destruct call; try discriminate Hoffered;
        unfold perform, startQuiz, answerQuestion, nextQuestion, previousQuestion,
          skipQuestion, resetQuiz.
      + cbn [quizReducer currentState startTime completionTime]. split.
        * split; intros; discriminate.
        * split; intros; [discriminate | apply IHdone; discriminate].
      + cbn [quizReducer currentState startTime completionTime]. rewrite Hname. split.
        * rewrite IHstart. split; intros; discriminate.
        * rewrite IHdone. split; intros; discriminate.
      + destruct (6 <? currentQuestion state + 1)%nat eqn:Hend.
        * cbn [quizReducer currentQuestion]. rewrite Hend.
          cbn [currentState startTime completionTime]. split.
          -- rewrite IHstart. split; intros; discriminate.
          -- split; intros; [discriminate | congruence].
        * cbn [quizReducer]. rewrite Hend. cbn [currentState startTime completionTime]. split.
          -- rewrite IHstart. split; intros; discriminate.
          -- rewrite IHdone. split; intros; discriminate.
      + cbn [quizReducer currentState startTime completionTime]. split.
        * rewrite IHstart. destruct (Nat.max 1 (currentQuestion state - 1) =? 1)%nat;
            split; intros; discriminate.
        * rewrite IHdone. destruct (Nat.max 1 (currentQuestion state - 1) =? 1)%nat;
            split; intros; discriminate.
      + cbn [quizReducer]. destruct (6 <? currentQuestion state + 1)%nat;
          cbn [currentState startTime completionTime]; split.
        * rewrite IHstart. split; intros; discriminate.
        * split; intros; [discriminate | congruence].
        * rewrite IHstart. split; intros; discriminate.
        * rewrite IHdone. split; intros; discriminate.
      + split; split; intros; [reflexivity | reflexivity | discriminate | reflexivity]. }
  destruct Hinv as [Hstart Hdone]. split; [exact Hstart |]. split; [exact Hdone |].
  intros Hidle. unfold timeElapsed. rewrite (proj2 Hstart Hidle). reflexivity.
Qed.

Lemma viewed_times_witness :
  let state := run [ CallStart 5 None; CallSkip 6 1 ] in
  (startTime state = None <-> currentState state = IDLE)
  /\ (completionTime state = None <-> currentState state <> RESULT)
  /\ (currentState state = IDLE -> timeElapsed 9 state = 0%Z).
Proof.
  apply viewed_times.
  apply (viewed_perform _ (CallSkip 6 1)); [| reflexivity].
  apply (viewed_perform _ (CallStart 5 None)); [| reflexivity].
  apply viewed_initial.
Defined.

(** X8.  Starting with a first answer is starting without one and then
    answering question 1 with it; a falsy first answer (the empty string
    the hero passes when nothing is selected) is no first answer. *)
Theorem start_with_first_answer (now : Z) (v : JsValue) (state : QuizState) :
  startQuiz now (Some v) state
  = if truthy v
    then answerQuestion 1 v (startQuiz now None state)
    else startQuiz now None state.
Proof.
  unfold startQuiz, answerQuestion. cbn [quizReducer answers currentState currentQuestion
    result startTime completionTime given].
  destruct (truthy v); [| reflexivity].
  unfold Object_keys_length. rewrite insert_empty, map_size_singleton. reflexivity.
Qed.

(** X9.  The derivation the provider calls leaves the name undefined
    whenever the bitterness question was skipped: the index is then not a
    number. *)
Theorem skipped_bitterness_leaves_name_undefined
    (answers : gmap nat JsValue) (u1 u2 u3 : float) :
  answers !! 4 = Some (VStr "skipped") ->
  name (generateBlendResult u1 u2 u3 answers) = None.
Proof.
  intros H4. unfold generateBlendResult. cbn [name]. rewrite H4.
  unfold nameIndex_of. cbn [or_else truthy].
  destruct (length_of _); [destruct (length_of _) |]; reflexivity.
Qed.

Lemma skipped_bitterness_leaves_name_undefined_witness :
  name (generateBlendResult 0 0 0 {[ 4 := VStr "skipped" ]}) = None.
Proof.
  apply skipped_bitterness_leaves_name_undefined. reflexivity.
Defined.

Lemma length_of_text (x : option JsValue) (d : string) :
  text_or_absent x -> exists n, length_of (or_else x (VStr d)) = Some n /\ (0 <= n)%Z.
Proof.
  intros Hx. destruct x as [[s | l | b] |]; try contradiction; cbn.
  - destruct (negb (s =? "")); eexists; (split; [reflexivity | lia]).
  - eexists; (split; [reflexivity | lia]).
Qed.

(** X10.  When the first two slots are absent or hold strings and the
    bitterness is absent or a slider value from 1 to 5, the derivation the
    provider calls names one of its twelve blends. *)
Theorem context_name_defined (answers : gmap nat JsValue) (u1 u2 u3 : float) :
  text_or_absent (answers !! 1) ->
  text_or_absent (answers !! 2) ->
  slider_or_absent (answers !! 4) ->
  exists blend, name (generateBlendResult u1 u2 u3 answers) = Some blend
                /\ In blend blendNames
                /\ length blendNames = 12.
Proof.
  intros H1 H2 H4.
  destruct (length_of_text _ "smooth-nutty" H1) as [a [Ha Ha0]].
  destruct (length_of_text _ "medium" H2) as [b [Hb Hb0]].
  assert (Hz : exists z, or_else (answers !! 4) (VNum 3) = VNum z /\ (1 <= z <= 5)%Z).
  { destruct (answers !! 4) as [[s | l | z] |]; try contradiction; cbn in *.
    - exists z. destruct (Z.eqb_spec z 0); [lia |]. split; [reflexivity | exact H4].
    - exists 3%Z. split; [reflexivity | lia]. }
  destruct Hz as [z [Hz Hz15]].
  unfold generateBlendResult. cbn [name]. unfold nameIndex_of. rewrite Ha, Hb, Hz.
  destruct (array_at_Some blendNames (Z.rem (a + b + z) (Z.of_nat (length blendNames))))
    as [blend [Hblend Hin]].
  { change (Z.of_nat (length blendNames)) with 12%Z.
    pose proof (Z.rem_bound_pos (a + b + z) 12). lia. }
  exists blend. repeat split; [exact Hblend | exact Hin].
Qed.

Lemma context_name_defined_witness :
  exists blend, name (generateBlendResult 0 0 0 {[ 1 := VStr "skipped"; 4 := VNum 5 ]}) = Some blend
                /\ In blend blendNames
                /\ length blendNames = 12.
Proof.
  apply (context_name_defined {[ 1 := VStr "skipped"; 4 := VNum 5 ]} 0 0 0).
  - exact I.
  - exact I.
  - vm_compute. split; discriminate.
Defined.

End ViewedResult.

(** ** Further properties of the derivation of [quizLogic.js] *)

Section DerivationMore.

Import QuizLogic.

Lemma existsb_orb {A : Type} (f g : A -> bool) (l : list A) :
  existsb (fun x => f x || g x) l = existsb f l || existsb g l.
Proof.
  induction l as [| x l IH]; [reflexivity |]. cbn. rewrite IH.
  destruct (f x), (g x), (existsb f l), (existsb g l); reflexivity.
Qed.

Lemma origin_matches_chosen (flavors : list JsValue) (origin : Origin) :
  origin_matches flavors origin = existsb (chosen flavors) (origin_profile origin).
Proof.
  unfold origin_matches, chosen.
  induction flavors as [| flavor flavors IH]; cbn.
  - induction (origin_profile origin) as [| p ps IHp]; [reflexivity | cbn; exact IHp].
  - rewrite IH, existsb_orb. reflexivity.
Qed.

Lemma existsb_agree {A : Type} (f g : A -> bool) (l : list A) :
  (forall x, In x l -> f x = g x) -> existsb f l = existsb g l.
Proof.
  induction l as [| x l IH]; intros Hfg; [reflexivity |]. cbn.
  rewrite (Hfg x) by (left; reflexivity). rewrite IH; [reflexivity |].
  intros y Hy. apply Hfg. right. exact Hy.
Qed.

Lemma all_marks_complete (bits : list bool) : In bits (all_marks (length bits)).
Proof.
  induction bits as [| b bits IH]; [left; reflexivity |].
  cbn [length all_marks]. apply in_app_iff.
  destruct b; [left | right]; apply in_map; exact IH.
Qed.

Lemma origin_pair_ok_marks :
  forallb (fun bits => origin_pair_ok (selection_of profile_tokens bits)) (all_marks 7) = true.
Proof. vm_compute. reflexivity. Qed.

(** A selection matters to the origins through the profile tokens only. *)
Lemma profile_selection (selection : string -> bool) (origin : Origin) :
  In origin ORIGINS ->
  existsb selection (origin_profile origin)
  = existsb (selection_of profile_tokens (map selection profile_tokens)) (origin_profile origin).
Proof.
  unfold ORIGINS.
  intros [<- | [<- | [<- | [<- | [<- | [<- | [<- | [<- | [<- | [<- | []]]]]]]]]]]; reflexivity.
Qed.

Lemma origin_pair_selection (selection : string -> bool) :
  origin_pair selection = origin_pair (selection_of profile_tokens (map selection profile_tokens)).
Proof.
  unfold origin_pair.
  rewrite (List.filter_ext_in _ _ ORIGINS (profile_selection selection)). reflexivity.
Qed.

Lemma array_at_In {A : Type} (arr : list A) (i : Z) (x : A) :
  array_at arr i = Some x -> In x arr.
Proof.
  unfold array_at. destruct ((0 <=? i)%Z && (i <? Z.of_nat (length arr))%Z); [| discriminate].
  intros Hx. apply list_elem_of_In. eapply list_elem_of_lookup_2. exact Hx.
Qed.

Lemma origin_pair_in_table (selection : string -> bool) :
  In (origin_pair selection).1 ORIGINS /\ In (origin_pair selection).2 ORIGINS.
Proof.
  unfold origin_pair. cbn [fst snd].
  set (matching := List.filter _ ORIGINS).
  assert (Hsub : forall origin,
            In origin (if (0 <? length matching)%nat then matching else ORIGINS) ->
            In origin ORIGINS).
  { intros origin. destruct (0 <? length matching)%nat; [| tauto].
    intros Hin. apply List.filter_In in Hin. tauto. }
  split.
  - destruct (array_at _ 0) as [origin |] eqn:Hat;
      [apply Hsub; eapply array_at_In; exact Hat | left; reflexivity].
  - destruct (array_at _ 1) as [origin |] eqn:Hat;
      [apply Hsub; eapply array_at_In; exact Hat | right; left; reflexivity].
Qed.

Lemma filter_none {A : Type} (f : A -> bool) (l : list A) :
  existsb f l = false -> List.filter f l = [].
Proof.
  induction l as [| x l IH]; [reflexivity |]. cbn.
  destruct (f x); [discriminate | exact IH].
Qed.

Lemma origin_pair_ok_selection (selection : string -> bool) : origin_pair_ok selection = true.
Proof.
  pose proof (proj1 (forallb_forall _ _) origin_pair_ok_marks
                (map selection profile_tokens) (all_marks_complete _)) as Hok.
  cbv beta in Hok. unfold origin_pair_ok in *.
  rewrite <- origin_pair_selection in Hok.
  rewrite (existsb_agree _ _ ORIGINS (profile_selection selection)).
  rewrite (profile_selection selection _ (proj1 (origin_pair_in_table selection))).
  exact Hok.
Qed.

(** X11.  The origin breakdown always names two different origins of the
    table, split 70/30, 55/45 or 60/40.  When some origin matches a
    selected flavor the primary origin is a matching one; when none does,
    the two are the first two of the table. *)
Theorem origin_blend_pair (flavors : list JsValue) (roastPreference : JsValue) :
  exists primary secondary percent,
    generateOriginBlend flavors roastPreference
    = origin_name primary ++ " " ++ num_to_string percent ++ "% • "
        ++ origin_name secondary ++ " " ++ num_to_string (100 - percent) ++ "%"
    /\ In primary ORIGINS /\ In secondary ORIGINS
    /\ primary <> secondary
    /\ (percent = 70 \/ percent = 55 \/ percent = 60)%Z
    /\ (if existsb (origin_matches flavors) ORIGINS
        then origin_matches flavors primary = true
        else primary = ORIGINS_0 /\ secondary = ORIGINS_1).
Proof.
  pose proof (origin_pair_ok_selection (chosen flavors)) as Hok.
  pose proof (origin_pair_in_table (chosen flavors)) as [Hp Hs].
  unfold origin_pair_ok in Hok.
  exists (origin_pair (chosen flavors)).1, (origin_pair (chosen flavors)).2.
  eexists. split.
  { unfold generateOriginBlend, origin_pair. cbn [fst snd].
    rewrite (List.filter_ext _ _ (origin_matches_chosen flavors)). reflexivity. }
  rewrite (existsb_agree _ _ ORIGINS (fun origin _ => origin_matches_chosen flavors origin)),
    origin_matches_chosen.
  apply andb_prop in Hok as [Hne Hmatch].
  split; [exact Hp |]. split; [exact Hs |]. split; [| split].
  - intros Heq. rewrite Heq, String.eqb_refl in Hne. discriminate Hne.
  - destruct (strict_eq_str roastPreference "light");
      [| destruct (strict_eq_str roastPreference "dark")]; tauto.
  - destruct (existsb _ ORIGINS) eqn:Hany; [exact Hmatch |].
    unfold origin_pair. rewrite (filter_none _ _ Hany). split; reflexivity.
Qed.

End DerivationMore.

Section TastingNotes.

Import QuizLogic.

Lemma lookup_key_In {A : Type} (table : list (string * A)) (key : string) (a : A) :
  lookup_key table key = Some a -> In (key, a) table.
Proof.
  induction table as [| [k x] table IH]; [discriminate |]. cbn.
  destruct (String.eqb_spec k key) as [-> | _].
  - intros [= ->]. left. reflexivity.
  - intros Hrest. right. apply IH. exact Hrest.
Qed.

Lemma flavor_note_defined (roastPreference flavor : JsValue) :
  exists note, flavor_note roastPreference flavor = Some note
               /\ (note = "Complex notes" \/ In note (notes_of_flavor (to_string flavor))).
Proof.
  unfold flavor_note, notes_of_flavor.
  destruct (lookup_key FLAVOR_PROFILES (to_string flavor)) as [profile |] eqn:Hprofile.
  - apply lookup_key_In in Hprofile. unfold FLAVOR_PROFILES in Hprofile.
    destruct Hprofile as [H | [H | [H | [H | [H | [H | [H | []]]]]]]];
      injection H as _ <-;
      destruct (strict_eq_str roastPreference "light"), (strict_eq_str roastPreference "dark");
      eexists; (split; [reflexivity | right; cbn; tauto]).
  - eexists. split; [reflexivity | left; reflexivity].
Qed.

Lemma flavor_notes_defined (roastPreference : JsValue) (flavors : list JsValue) :
  exists notes, map (flavor_note roastPreference) flavors = map Some notes
                /\ length notes = length flavors
                /\ Forall (fun note => note = "Complex notes"
                                       \/ exists flavor, In note (notes_of_flavor flavor)) notes.
Proof.
  induction flavors as [| flavor flavors [notes [Hmap [Hlen Hall]]]].
  - exists []. repeat split. constructor.
  - destruct (flavor_note_defined roastPreference flavor) as [note [Hnote Hwhich]].
    exists (note :: notes). cbn. rewrite Hnote, Hmap, Hlen. repeat split.
    constructor; [| exact Hall].
    destruct Hwhich as [-> | Hin]; [left; reflexivity | right; eexists; exact Hin].
Qed.

(** X12.  For flavors none of which names a member of [Object.prototype]
    (for such a flavor the source throws) and a slider bitterness from 1 to
    5, the tasting notes are one to three flavor notes followed by a finish
    descriptor, joined by the separator.  Each flavor note is a note of a
    flavor profile or 'Complex notes'; the finish is 'Smooth finish' for 1
    and for 2, 'Clean finish' for 3, 'Bold finish' for 4 and 'Lingering
    finish' for 5. *)
Theorem tasting_notes_shape (flavors : list JsValue) (roastPreference : JsValue) (bitterness : Z) :
  forallb plain_key flavors = true ->
  (1 <= bitterness <= 5)%Z ->
  exists flavorNotes finish,
    generateTastingNotes flavors roastPreference (VNum bitterness)
    = join " • " (flavorNotes ++ [finish])%list
    /\ 1 <= length flavorNotes <= 3
    /\ Forall (fun note => note = "Complex notes"
                           \/ exists flavor, In note (notes_of_flavor flavor)) flavorNotes
    /\ array_at finishNotes (Z.max 0 (bitterness - 2)) = Some finish.
Proof.
  intros _ Hrange. unfold generateTastingNotes.
  set (kept := take 3 (List.filter _ flavors)).
  set (selectedFlavors := if (length kept =? 0)%nat then _ else kept).
  assert (Hselected : 1 <= length selectedFlavors <= 3).
  { assert (Hkept : length kept <= 3) by (subst kept; rewrite length_take; lia).
    subst selectedFlavors. destruct (Nat.eqb_spec (length kept) 0) as [Hzero | Hpos].
    - rewrite length_app, Hzero. cbn. lia.
    - lia. }
  destruct (flavor_notes_defined roastPreference selectedFlavors) as [notes [Hmap [Hlen Hall]]].
  assert (Hfinish : exists finish,
            array_get finishNotes (finishIndex (VNum bitterness)) = Some finish
            /\ array_at finishNotes (Z.max 0 (bitterness - 2)) = Some finish).
  { assert (Hcases : (bitterness = 1 \/ bitterness = 2 \/ bitterness = 3
                      \/ bitterness = 4 \/ bitterness = 5)%Z) by lia.
    destruct Hcases as [-> | [-> | [-> | [-> | ->]]]];
      eexists; split; vm_compute; reflexivity. }
  destruct Hfinish as [finish [Hget Hat]].
  exists notes, finish. rewrite Hmap, Hget. split; [| split; [lia | split; assumption]].
  unfold join_opt. rewrite map_app, map_map. cbn [map]. rewrite map_id. reflexivity.
Qed.

Lemma tasting_notes_shape_witness :
  exists flavorNotes finish,
    generateTastingNotes [VStr "berry"; VStr "skipped"] (VStr "light") (VNum 2)
    = join " • " (flavorNotes ++ [finish])%list
    /\ 1 <= length flavorNotes <= 3
    /\ Forall (fun note => note = "Complex notes"
                           \/ exists flavor, In note (notes_of_flavor flavor)) flavorNotes
    /\ array_at finishNotes (Z.max 0 (2 - 2)) = Some finish.
Proof.
  apply (tasting_notes_shape [VStr "berry"; VStr "skipped"] (VStr "light") 2);
    [reflexivity | lia].
Defined.

End TastingNotes.

Section QuizOptions.

Import QuizLogic.

Ltac in_table := cbn; repeat (first [ left; reflexivity | right ]).

(** X13.  No option the quiz offers for question 1 has a drink-style
    phrase in [generateDescription]: for each of them, as for a skipped
    question, on answers of plain values (on others the source may throw
    before it describes) the description of [quizLogic.js] falls back to
    'perfect coffee experience', while the provider's own derivation has a
    phrase for every one of these options. *)
Theorem first_question_options_fall_back (q : QuizContext.Question) (value : string)
    (answers : gmap nat JsValue) :
  plain_answers answers = true ->
  QuizContext.question_at QuizContext.QUIZ_QUESTIONS 1 = Some q ->
  In value (QuizContext.option_values q) \/ value = "skipped" ->
  answers !! 1 = Some (VStr value) ->
  (exists rest,
     description (generateBlendResult answers)
     = "A carefully crafted blend that matches your taste preferences for perfect coffee experience with "
         ++ rest)
  /\ (value <> "skipped" ->
      exists phrase, lookup_key QuizContext.profileDescriptions value = Some phrase).
Proof.
  intros _ Hq Hvalue H1. injection Hq as <-.
  unfold generateBlendResult, drinkStyle_of. cbn [description]. rewrite H1.
  cbn in Hvalue.
  destruct Hvalue as [[<- | [<- | [<- | []]]] | ->]; (split; [eexists; reflexivity |]);
    intros Hne; try (eexists; reflexivity). contradiction.
Qed.

Lemma first_question_options_fall_back_witness :
  (exists rest,
     description (generateBlendResult {[ 1 := VStr "rich-chocolatey" ]})
     = "A carefully crafted blend that matches your taste preferences for perfect coffee experience with "
         ++ rest)
  /\ ("rich-chocolatey" <> "skipped" ->
      exists phrase, lookup_key QuizContext.profileDescriptions "rich-chocolatey" = Some phrase).
Proof.
  apply (first_question_options_fall_back
           (default (QuizContext.mkQuestion 0 "" "" [] None None [])
                    (QuizContext.question_at QuizContext.QUIZ_QUESTIONS 1))
           "rich-chocolatey" {[ 1 := VStr "rich-chocolatey" ]}).
  - vm_compute. reflexivity.
  - reflexivity.
  - left. vm_compute. tauto.
  - reflexivity.
Defined.

(** X14.  Every flavor the quiz offers for question 3 has a flavor profile
    and an origin: whatever the roast, its note is a note of its own
    profile, never 'Complex notes', and some origin of the table matches
    it; the question allows three selections. *)
Theorem flavor_options_covered (q : QuizContext.Question) (value : string)
    (roastPreference : JsValue) :
  QuizContext.question_at QuizContext.QUIZ_QUESTIONS 3 = Some q ->
  In value (QuizContext.option_values q) ->
  (exists note, flavor_note roastPreference (VStr value) = Some note
                /\ In note (notes_of_flavor value)
                /\ note <> "Complex notes")
  /\ (exists origin, In origin ORIGINS /\ origin_matches [VStr value] origin = true)
  /\ QuizContext.question_maxSelection q = Some 3.
Proof.
  intros Hq Hvalue. injection Hq as <-. cbn in Hvalue.
  split; [| split; [| reflexivity]].
  - destruct (strict_eq_str roastPreference "light") eqn:Hlight,
      (strict_eq_str roastPreference "dark") eqn:Hdark;
      destruct Hvalue as [<- | [<- | [<- | [<- | [<- | [<- | [<- | []]]]]]]];
      unfold flavor_note; cbn [to_string lookup_key FLAVOR_PROFILES String.eqb Ascii.eqb Bool.eqb];
      cbn; rewrite ?Hlight, ?Hdark;
      eexists; (split; [reflexivity | split; [cbn; tauto | discriminate]]).
  - destruct Hvalue as [<- | [<- | [<- | [<- | [<- | [<- | [<- | []]]]]]]].
    + exists (mkOrigin "Colombian Huila" ["chocolate"; "caramel"] "medium"). split; [in_table | reflexivity].
    + exists (mkOrigin "Colombian Huila" ["chocolate"; "caramel"] "medium"). split; [in_table | reflexivity].
    + exists (mkOrigin "Ethiopian Yirgacheffe" ["floral"; "citrus"] "light"). split; [in_table | reflexivity].
    + exists (mkOrigin "Costa Rican Tarrazú" ["citrus"; "berry"] "medium"). split; [in_table | reflexivity].
    + exists (mkOrigin "Brazilian Santos" ["nutty"; "chocolate"] "medium"). split; [in_table | reflexivity].
    + exists (mkOrigin "Ethiopian Yirgacheffe" ["floral"; "citrus"] "light"). split; [in_table | reflexivity].
    + exists (mkOrigin "Guatemalan Antigua" ["spicy"; "chocolate"] "full"). split; [in_table | reflexivity].
Qed.

Lemma flavor_options_covered_witness :
  (exists note, flavor_note (VStr "dark") (VStr "spicy") = Some note
                /\ In note (notes_of_flavor "spicy")
                /\ note <> "Complex notes")
  /\ (exists origin, In origin ORIGINS /\ origin_matches [VStr "spicy"] origin = true)
  /\ QuizContext.question_maxSelection
       (default (QuizContext.mkQuestion 0 "" "" [] None None [])
                (QuizContext.question_at QuizContext.QUIZ_QUESTIONS 3)) = Some 3.
Proof.
  apply (flavor_options_covered
           (default (QuizContext.mkQuestion 0 "" "" [] None None [])
                    (QuizContext.question_at QuizContext.QUIZ_QUESTIONS 3))
           "spicy" (VStr "dark")).
  - reflexivity.
  - vm_compute. tauto.
Defined.

End QuizOptions.

Section NameSeed.

Import QuizLogic.

(** The character codes a list of values adds to the seed. *)
Lemma fold_left_add (codes : list N) (acc : N) :
  fold_left (fun a code => (a + code)%N) codes acc
  = (acc + fold_left (fun a code => (a + code)%N) codes 0)%N.
Proof.
  revert acc. induction codes as [| code codes IH]; intros acc; cbn.
  - lia.
  - rewrite (IH (acc + code)%N), (IH (0 + code)%N). lia.
Qed.

Lemma char_codes_app (s t : string) : char_codes (s ++ t) = (char_codes s ++ char_codes t)%list.
Proof.
  unfold char_codes. induction s as [| c s IH]; [reflexivity |].
  change (String c s ++ t) with (String c (s ++ t)). cbn. f_equal. exact IH.
Qed.

Lemma code_sum_app (s t : string) : code_sum (s ++ t) = (code_sum s + code_sum t)%N.
Proof.
  unfold code_sum. rewrite char_codes_app, fold_left_app.
  rewrite fold_left_add. reflexivity.
Qed.

Lemma code_sum_join (parts : list string) :
  code_sum (join "" parts) = fold_right (fun part acc => (code_sum part + acc)%N) 0%N parts.
Proof.
  unfold join. induction parts as [| part parts IH]; [reflexivity |].
  destruct parts as [| part' parts].
  - change (String.concat "" [part]) with part. cbn [fold_right]. lia.
  - change (String.concat "" (part :: part' :: parts))
      with (part ++ String.concat "" (part' :: parts)).
    rewrite code_sum_app, IH. reflexivity.
Qed.

Lemma values_total_Permutation (values values' : list JsValue) :
  Permutation values values' ->
  values_total values = values_total values'.
Proof.
  unfold values_total.
  induction 1 as [| v l l' _ IH | v w l | l l' l'' _ IH1 _ IH2]; cbn [fold_right].
  - reflexivity.
  - rewrite IH. reflexivity.
  - lia.
  - congruence.
Qed.

Lemma name_seed_total (answers : gmap nat JsValue) :
  name_seed answers = values_total (Object_values answers).
Proof.
  unfold name_seed. change (fold_left _ (char_codes ?s) 0%N) with (code_sum s).
  rewrite code_sum_join.
  unfold values_total.
  induction (Object_values answers) as [| v values IH]; [reflexivity |].
  cbn [List.filter]. destruct (truthy v) eqn:Hv; cbn [map fold_right]; rewrite Hv, IH;
    [reflexivity | lia].
Qed.

(** X15.  The blend name does not depend on which question a value
    answers: two answer objects that hold the same values, under whatever
    ids, have the same seed and the same name. *)
Theorem blend_name_ignores_ids (answers answers' : gmap nat JsValue) :
  Permutation (Object_values answers) (Object_values answers') ->
  name_seed answers = name_seed answers'
  /\ generateBlendName answers = generateBlendName answers'.
Proof.
  intros Hsame.
  assert (Hseed : name_seed answers = name_seed answers').
  { rewrite !name_seed_total. apply values_total_Permutation. exact Hsame. }
  split; [exact Hseed |]. unfold generateBlendName. rewrite Hseed. reflexivity.
Qed.

Lemma blend_name_ignores_ids_witness :
  name_seed {[ 2 := VStr "dark"; 5 := VStr "espresso" ]}
  = name_seed {[ 2 := VStr "espresso"; 5 := VStr "dark" ]}
  /\ generateBlendName {[ 2 := VStr "dark"; 5 := VStr "espresso" ]}
     = generateBlendName {[ 2 := VStr "espresso"; 5 := VStr "dark" ]}.
Proof.
  apply blend_name_ignores_ids. vm_compute. apply perm_swap.
Defined.

(** X16.  A value added under a fresh id adds the character codes of its
    string to the seed when it is truthy and nothing when it is falsy. *)
Theorem name_seed_insert (answers : gmap nat JsValue) (k : nat) (v : JsValue) :
  answers !! k = None ->
  name_seed (<[ k := v ]> answers)
  = (name_seed answers + (if truthy v then code_sum (to_string v) else 0))%N.
Proof.
  intros Hfresh. rewrite !name_seed_total.
  assert (Hperm : Permutation (Object_values (<[ k := v ]> answers))
                              (v :: Object_values answers)).
  { unfold Object_values.
    rewrite (merge_sort_Permutation key_le (map_to_list (<[ k := v ]> answers))).
    rewrite (merge_sort_Permutation key_le (map_to_list answers)).
    rewrite (map_to_list_insert answers k v Hfresh). reflexivity. }
  rewrite (values_total_Permutation _ _ Hperm). unfold values_total. cbn [fold_right]. lia.
Qed.

Lemma name_seed_insert_witness :
  name_seed (<[ 4%nat := VNum 5 ]> {[ 2%nat := VStr "dark" ]})
  = (name_seed {[ 2%nat := VStr "dark" ]}
     + (if truthy (VNum 5) then code_sum (to_string (VNum 5)) else 0))%N.
Proof.
  apply name_seed_insert. reflexivity.
Defined.

End NameSeed.

Section CompletionAndRecommendations.

Import QuizLogic.

Lemma divided_by_zero (x : float) :
  Prim2SF (x / 0)%float = S754_nan \/ exists sign, Prim2SF (x / 0)%float = S754_infinity sign.
Proof.
  rewrite div_spec. change (Prim2SF 0) with (S754_zero false).
  destruct (Prim2SF x) as [sign | sign | | sign m e]; cbn; eauto.
Qed.

Lemma Math_round_not_finite (x : float) :
  Prim2SF x = S754_nan \/ (exists sign, Prim2SF x = S754_infinity sign) -> Math_round x = x.
Proof.
  unfold Math_round. intros [Hnan | [sign Hinf]]; [rewrite Hnan | rewrite Hinf]; reflexivity.
Qed.

(** X17.  With no answers, [analyzeQuizCompletion] divides the seconds by
    zero: whatever the elapsed time, the average time per question is not a
    finite number ([NaN] or an infinity), and the completion rate is 0. *)
Theorem analysis_of_no_answers (timeElapsed : Z) :
  let analysis := analyzeQuizCompletion timeElapsed ∅ in
  (Prim2SF (averageTime analysis) = S754_nan
   \/ exists sign, Prim2SF (averageTime analysis) = S754_infinity sign)
  /\ completionRate analysis = 0%float.
Proof.
  cbv zeta. unfold analyzeQuizCompletion. cbn [averageTime completionRate].
  change (nat2float (Object_keys_length ∅)) with 0%float.
  split; [| reflexivity].
  rewrite Math_round_not_finite; apply divided_by_zero.
Qed.

Lemma includes_elements (l : list string) (lit : string) :
  includes_str (map Some (elements_of l)) lit = true <-> In lit l.
Proof.
  unfold includes_str, elements_of. induction l as [| s l IH]; cbn.
  - split; [discriminate | contradiction].
  - rewrite orb_true_iff, IH. destruct (String.eqb_spec s lit); split; intros [H | H];
      try tauto; try discriminate; congruence.
Qed.

(** X18.  [generateRecommendations] returns the pour-over recommendation
    exactly when the brew method is 'not-sure' and the single-origin
    recommendation exactly when chocolate is among the flavors; with both,
    the equipment comes first.  It returns nothing for answers without
    slots 3 and 5. *)
Theorem recommendations_characterised (answers : gmap nat JsValue) :
  let recommendations := generateRecommendations answers in
  (In equipment_recommendation recommendations <-> answers !! 5 = Some (VStr "not-sure"))
  /\ (In flavor_recommendation recommendations <-> chocolate_selected answers)
  /\ (recommendations = [] \/ recommendations = [equipment_recommendation]
      \/ recommendations = [flavor_recommendation]
      \/ recommendations = [equipment_recommendation; flavor_recommendation])
  /\ (answers !! 3 = None -> answers !! 5 = None -> recommendations = []).
Proof.
  cbv zeta. unfold generateRecommendations, chocolate_selected.
  set (flavors := match answers !! 3 with Some (VArr l) => _ | other => [other] end).
  assert (Hchocolate : includes_str flavors "chocolate" = true
                       <-> match answers !! 3 with
                           | Some (VArr l) => In "chocolate" l
                           | Some (VStr s) => s = "chocolate"
                           | _ => False
                           end).
  { subst flavors. destruct (answers !! 3) as [[s | l | n] |].
    - cbn. rewrite orb_false_r. split; [apply String.eqb_eq | intros ->; apply String.eqb_refl].
    - apply includes_elements.
    - cbn. split; [discriminate | contradiction].
    - cbn. split; [discriminate | contradiction]. }
  assert (Hbrew : (match answers !! 5 with
                   | Some v => strict_eq_str v "not-sure"
                   | None => false
                   end) = true <-> answers !! 5 = Some (VStr "not-sure")).
  { destruct (answers !! 5) as [[s | l | n] |]; cbn.
    - split; [intros H; apply String.eqb_eq in H; congruence
             | intros [= ->]; reflexivity].
    - split; discriminate.
    - split; discriminate.
    - split; discriminate. }
  assert (Hnone : answers !! 3 = None -> answers !! 5 = None ->
                  includes_str flavors "chocolate" = false).
  { intros H3 _. subst flavors. rewrite H3. reflexivity. }
  set (afterEquipment := match answers !! 5 with Some v => _ | None => [] end).
  assert (Hequipment : afterEquipment
                       = if (match answers !! 5 with
                             | Some v => strict_eq_str v "not-sure"
                             | None => false
                             end) then [equipment_recommendation] else []).
  { subst afterEquipment. destruct (answers !! 5); reflexivity. }
  rewrite Hequipment. clear Hequipment afterEquipment.
  assert (Hnobrew : answers !! 5 = None ->
                    (match answers !! 5 with
                     | Some v => strict_eq_str v "not-sure"
                     | None => false
                     end) = false).
  { intros ->. reflexivity. }
  destruct (match answers !! 5 with Some v => strict_eq_str v "not-sure" | None => false end);
    destruct (includes_str flavors "chocolate"); cbn [app].
  - split; [split; [intros _; apply Hbrew; reflexivity | intros _; left; reflexivity] |].
    split; [split; [intros _; apply Hchocolate; reflexivity | intros _; right; left; reflexivity] |].
    split; [tauto |]. intros H3 H5. specialize (Hnone H3 H5). discriminate Hnone.
  - split; [split; [intros _; apply Hbrew; reflexivity | intros _; left; reflexivity] |].
    split; [split; [intros [H | []]; discriminate H
                   | intros H; apply Hchocolate in H; discriminate H] |].
    split; [tauto |]. intros H3 H5. specialize (Hnobrew H5). discriminate Hnobrew.
  - split; [split; [intros [H | []]; discriminate H | intros H; apply Hbrew in H; discriminate H] |].
    split; [split; [intros _; apply Hchocolate; reflexivity | intros _; left; reflexivity] |].
    split; [tauto |]. intros H3 H5. specialize (Hnone H3 H5). discriminate Hnone.
  - split; [split; [intros [] | intros H; apply Hbrew in H; discriminate H] |].
    split; [split; [intros [] | intros H; apply Hchocolate in H; discriminate H] |].
    split; [tauto | reflexivity].
Qed.

End CompletionAndRecommendations.

(** ** The flavor chips of the quiz view *)

Section FlavorChips.

Import QuizView.

Lemma selected_In (multiSelectAnswers : list string) (value : string) :
  selected multiSelectAnswers value = true <-> In value multiSelectAnswers.
Proof.
  unfold selected. rewrite existsb_exists. split.
  - intros [x [Hin Heq]]. apply String.eqb_eq in Heq. subst x. exact Hin.
  - intros Hin. exists value. split; [exact Hin | apply String.eqb_refl].
Qed.

Lemma cap_positive (maxSelection : option nat) : 1 <= selection_cap maxSelection.
Proof.
  unfold selection_cap. destruct maxSelection as [[| n] |]; cbn; lia.
Qed.

Lemma remove_absent (multiSelectAnswers : list string) (value : string) :
  ~ In value multiSelectAnswers ->
  List.filter (fun a => negb (String.eqb a value)) multiSelectAnswers = multiSelectAnswers.
Proof.
  induction multiSelectAnswers as [| a l IH]; intros Hout; [reflexivity |]. cbn.
  destruct (String.eqb_spec a value) as [-> | _].
  - exfalso. apply Hout. left. reflexivity.
  - cbn. rewrite IH; [reflexivity |]. intros Hin. apply Hout. right. exact Hin.
Qed.

Lemma newAnswers_step (maxSelection : option nat) (multiSelectAnswers : list string)
    (value : string) :
  length multiSelectAnswers <= selection_cap maxSelection ->
  NoDup multiSelectAnswers ->
  length (newAnswers maxSelection multiSelectAnswers value) <= selection_cap maxSelection
  /\ NoDup (newAnswers maxSelection multiSelectAnswers value).
Proof.
  intros Hcap Hnodup. unfold newAnswers.
  destruct (selected multiSelectAnswers value) eqn:Hsel.
  - split.
    + pose proof (List.filter_length_le (fun a => negb (String.eqb a value)) multiSelectAnswers).
      lia.
    + apply NoDup_ListNoDup, List.NoDup_filter, NoDup_ListNoDup. exact Hnodup.
  - split.
    + rewrite length_take. lia.
    + eapply sublist_NoDup; [| apply sublist_take].
      apply NoDup_app. repeat split.
      * exact Hnodup.
      * intros x Hx Hx'. apply list_elem_of_In in Hx. apply list_elem_of_singleton in Hx'.
        subst x. apply selected_In in Hx. congruence.
      * apply NoDup_singleton.
Qed.

(** X19.  Whatever chips are clicked, in whatever order, starting from an
    empty selection, the selection never holds more flavors than the cap
    (three for the flavor question) and never holds a flavor twice, so the
    derivation's cut at three flavors drops nothing of it. *)
Theorem clicked_selection_capped (maxSelection : option nat) (values : list string) :
  let selection := clicks maxSelection [] values in
  length selection <= selection_cap maxSelection
  /\ NoDup selection
  /\ (forall value, In value selection -> In value values)
  /\ (selection_cap maxSelection = 3 -> take 3 selection = selection).
Proof.
  cbv zeta.
  assert (Hall : forall start,
            length start <= selection_cap maxSelection -> NoDup start ->
            length (clicks maxSelection start values) <= selection_cap maxSelection
            /\ NoDup (clicks maxSelection start values)
            /\ (forall value, In value (clicks maxSelection start values) ->
                              In value start \/ In value values)).
  { induction values as [| value values IH]; intros start Hcap Hnodup; cbn [clicks].
    - repeat split; [exact Hcap | exact Hnodup | tauto].
    - destruct (newAnswers_step maxSelection start value Hcap Hnodup) as [Hcap' Hnodup'].
      destruct (IH _ Hcap' Hnodup') as [H1 [H2 H3]].
      split; [exact H1 |]. split; [exact H2 |].
      intros x Hx. destruct (H3 x Hx) as [Hnew | Hrest]; [| right; right; exact Hrest].
      unfold newAnswers in Hnew. destruct (selected start value).
      + apply List.filter_In in Hnew. tauto.
      + apply list_elem_of_In in Hnew. apply (subseteq_take _ _ x) in Hnew.
        apply list_elem_of_In in Hnew as Hi.
        apply in_app_iff in Hi as [Hi | [<- | []]]; [tauto | right; left; reflexivity]. }
  destruct (Hall [] ltac:(cbn; lia) ltac:(constructor)) as [H1 [H2 H3]].
  split; [exact H1 |]. split; [exact H2 |]. split.
  - intros value Hvalue. destruct (H3 value Hvalue) as [[] | Hin]. exact Hin.
  - intros Hthree. apply take_ge. lia.
Qed.

(** X20.  A chip clicked twice.  When the flavor was not selected and the
    selection was below the cap, the selection is as before; when the
    selection was at the cap, the first click changes nothing (the chip is
    disabled) and neither does the second.  When the flavor was selected,
    the two clicks move it to the end. *)
Theorem chip_clicked_twice (maxSelection : option nat) (multiSelectAnswers : list string)
    (value : string) :
  (~ In value multiSelectAnswers ->
   length multiSelectAnswers < selection_cap maxSelection ->
   newAnswers maxSelection multiSelectAnswers value = (multiSelectAnswers ++ [value])%list
   /\ newAnswers maxSelection (newAnswers maxSelection multiSelectAnswers value) value
      = multiSelectAnswers)
  /\ (~ In value multiSelectAnswers ->
      length multiSelectAnswers = selection_cap maxSelection ->
      isDisabled maxSelection multiSelectAnswers value = true
      /\ newAnswers maxSelection multiSelectAnswers value = multiSelectAnswers)
  /\ (In value multiSelectAnswers ->
      length multiSelectAnswers <= selection_cap maxSelection ->
      ~ In value (newAnswers maxSelection multiSelectAnswers value)
      /\ newAnswers maxSelection (newAnswers maxSelection multiSelectAnswers value) value
         = (List.filter (fun a => negb (String.eqb a value)) multiSelectAnswers ++ [value])%list).
Proof.
  assert (Hunselected : forall l, ~ In value l -> selected l value = false).
  { intros l Hout. destruct (selected l value) eqn:Hsel; [| reflexivity].
    apply selected_In in Hsel. contradiction. }
  split; [| split].
  - intros Hout Hroom.
    assert (Hfirst : newAnswers maxSelection multiSelectAnswers value
                     = (multiSelectAnswers ++ [value])%list).
    { unfold newAnswers. rewrite (Hunselected _ Hout).
      apply take_ge. rewrite length_app. cbn. lia. }
    rewrite Hfirst. split; [reflexivity |].
    unfold newAnswers.
    assert (Hsel : selected (multiSelectAnswers ++ [value]) value = true).
    { apply selected_In. apply in_app_iff. right. left. reflexivity. }
    rewrite Hsel, List.filter_app, (remove_absent _ _ Hout). cbn.
    rewrite String.eqb_refl. cbn. apply app_nil_r.
  - intros Hout Hfull. unfold isDisabled, newAnswers. rewrite (Hunselected _ Hout). split.
    + cbn. apply Nat.leb_le. lia.
    + rewrite take_app_le by lia. apply take_ge. lia.
  - intros Hin Hcap.
    assert (Hsel : selected multiSelectAnswers value = true) by (apply selected_In; exact Hin).
    assert (Hgone : ~ In value (List.filter (fun a => negb (String.eqb a value)) multiSelectAnswers)).
    { intros Hstill. apply List.filter_In in Hstill as [_ Hne].
      rewrite String.eqb_refl in Hne. discriminate Hne. }
    assert (Hfirst : newAnswers maxSelection multiSelectAnswers value
                     = List.filter (fun a => negb (String.eqb a value)) multiSelectAnswers).
    { unfold newAnswers. rewrite Hsel. reflexivity. }
    rewrite Hfirst. split; [exact Hgone |].
    unfold newAnswers. rewrite (Hunselected _ Hgone).
    apply take_ge. rewrite length_app. cbn.
    assert (Hshorter : length (List.filter (fun a => negb (String.eqb a value)) multiSelectAnswers)
                       < length multiSelectAnswers).
    { clear Hsel Hgone Hcap Hfirst.
      induction multiSelectAnswers as [| a l IH]; [contradiction |]. cbn.
      destruct (String.eqb_spec a value) as [-> | Hne]; cbn.
      - pose proof (List.filter_length_le (fun a => negb (String.eqb a value)) l). lia.
      - destruct Hin as [-> | Hin]; [contradiction |]. specialize (IH Hin). lia. }
    lia.
Qed.

Lemma chip_clicked_twice_witness :
  newAnswers (Some 3) ["berry"; "nutty"] "citrus" = ["berry"; "nutty"; "citrus"]
  /\ newAnswers (Some 3) (newAnswers (Some 3) ["berry"; "nutty"] "citrus") "citrus"
     = ["berry"; "nutty"].
Proof.
  apply (proj1 (chip_clicked_twice (Some 3) ["berry"; "nutty"] "citrus")).
  - cbn. intros [H | [H | []]]; discriminate H.
  - cbn. lia.
Defined.

End FlavorChips.
